(** * sales_analysis: the GraphQL resolvers over the Customer / Product / Order store

    A shallow embedding of [src/graphql/resolvers.js] and of the three
    mongoose schemas it queries (Customer, Product, Order).

    Modelling choices, fixed once here:
    - a JavaScript / BSON [Number] holding money is the rational it denotes
      ([Q]): [$sum], [$multiply] and [$divide] are exact, the IEEE-754 error
      of the double arithmetic is not modelled.  [toFixed(2)] is the decimal
      rounding of ECMA-262 (nearest multiple of 1/100, ties away from zero).
      On a tie the double arithmetic of the code can fall on either side, so
      the statements about the amounts a query reports say that they have
      two decimals and lie within half a cent of the exact value, or compare
      two runs; they do not fix the direction of a tie;
    - a quantity is an integer ([Int!] in schema.js), a [Date] is its time
      value in milliseconds, [None] being the Invalid Date (NaN);
    - an [async] resolver is a computation that yields an outcome (a value or
      a thrown exception) together with the trace of the store calls and of
      the [console.error] calls it made;
    - mongoose is a collaborator: a call may throw a [CastError] (the id does
      not fit the key format of the store) or another driver error;
    - MongoDB leaves the order of the groups of [$group] and of the ties of
      [$sort] open: the model emits groups in order of first occurrence and
      sorts stably. *)

From Stdlib Require Import List ZArith QArith Qround Qabs String Bool Lia Lqa.
From Stdlib Require Import Sorting.Sorted Sorting.Permutation.
Import ListNotations.

Local Open Scope Z_scope.

(** ** Numbers *)

Module Num.

(** [x.toFixed(2)] read back by [parseFloat]: ECMA-262 takes the integer [n]
    for which [n / 100 - |x|] is closest to zero, the larger one on a tie,
    and puts the sign of [x] in front. *)
Definition toFixed2 (x : Q) : Q :=
  let n := Qfloor (Qabs x * 100 + (1 # 2)) in
  if Qle_bool 0 x then n # 100 else (- n) # 100.

(** The integer nearest to [x], a tie going to the even neighbour. *)
Definition round_half_even (x : Q) : Z :=
  let f := Qfloor x in
  let r := (x - inject_Z f)%Q in
  match (r ?= 1 # 2)%Q with
  | Lt => f
  | Gt => f + 1
  | Eq => if Z.even f then f else f + 1
  end.

(** MongoDB [{ $round: [x, 2] }]. *)
Definition mongoRound2 (x : Q) : Q := round_half_even (x * 100) # 100.

(** MongoDB [$divide] raises an error on a zero divisor. *)
Definition mongoDivide (a b : Q) : option Q :=
  if Qeq_bool b 0 then None else Some (a / b)%Q.

(** [{ $sum: ... }] over the values of a group. *)
Definition sumQ (l : list Q) : Q := fold_left Qplus l 0%Q.
Definition sumZ (l : list Z) : Z := fold_left Z.add l 0.

(** A number written with at most two decimals. *)
Definition two_decimals (x : Q) : Prop := exists k : Z, (x == k # 100)%Q.

End Num.

(** ** Data model (models/Customer.js, models/Product.js, models/Order.js) *)

Record Customer := mkCustomer {
  customer_id : string;
  customer_name : string;
  email : string;
  age : option Z;
  location : option string;
  gender : option string
}.

Record Product := mkProduct {
  product_id : string;
  product_name : string;
  category : string;
  price : Q;
  stock : Z
}.

Record OrderItem := mkOrderItem {
  productId : string;
  quantity : Z;
  priceAtPurchase : Q
}.

Inductive Status := pending | completed | canceled.

Record Order := mkOrder {
  order_id : string;
  customerId : string;
  products : list OrderItem;
  totalAmount : Q;
  orderDate : Z;
  status : Status
}.

Definition Status_eqb (a b : Status) : bool :=
  match a, b with
  | pending, pending | completed, completed | canceled, canceled => true
  | _, _ => false
  end.

(** ** Errors, traces and the asynchronous resolver monad *)

Inductive ErrorCode := BAD_USER_INPUT | NOT_FOUND | INTERNAL_SERVER_ERROR.

(** [new GraphQLError(message, { extensions: { code } })]; the second argument
    is optional. *)
Record GraphQLError := mkGraphQLError {
  message : string;
  code : option ErrorCode
}.

Inductive Thrown :=
| ThrowGraphQL (e : GraphQLError)
| ThrowCastError
| ThrowDriverError.

Inductive Pipeline :=
| spendingPipeline (customerId : string)
| topSellingPipeline (limit : Z)
| overallAnalyticsPipeline (start finish : Z)
| categoryBreakdownPipeline (start finish : Z).

Inductive StoreCall :=
| Customer_findById (id : string)
| Product_findById (id : string)
| Order_findById (id : string)
| Order_aggregate (p : Pipeline).

Inductive Event :=
| StoreAccess (c : StoreCall)
| ConsoleError (label : string).

Inductive Outcome (A : Type) :=
| Return (a : A)
| Throw (e : Thrown).
Arguments Return {A} a.
Arguments Throw {A} e.

Module Async.

Definition t (A : Type) : Type := (list Event * Outcome A)%type.

Definition ret {A} (a : A) : t A := ([], Return a).
Definition throw {A} (e : Thrown) : t A := ([], Throw e).
Definition emit (ev : Event) : t unit := ([ev], Return tt).

Definition bind {A B} (m : t A) (k : A -> t B) : t B :=
  match m with
  | (tr, Return a) => let (tr', o) := k a in (tr ++ tr', o)
  | (tr, Throw e) => (tr, Throw e)
  end.

(** [try { m } catch (error) { h error }] *)
Definition try_catch {A} (m : t A) (h : Thrown -> t A) : t A :=
  match m with
  | (tr, Return a) => (tr, Return a)
  | (tr, Throw e) => let (tr', o) := h e in (tr ++ tr', o)
  end.

(** [Promise.all([m1, m2])]: both promises are started, the result rejects
    when one of them does. *)
Definition all2 {A B} (m1 : t A) (m2 : t B) : t (A * B) :=
  match m1, m2 with
  | (tr1, Return a), (tr2, Return b) => (tr1 ++ tr2, Return (a, b))
  | (tr1, Throw e), (tr2, _) => (tr1 ++ tr2, Throw e)
  | (tr1, Return _), (tr2, Throw e) => (tr1 ++ tr2, Throw e)
  end.

Definition trace {A} (m : t A) : list Event := fst m.
Definition outcome {A} (m : t A) : Outcome A := snd m.

Definition is_store_access (ev : Event) : bool :=
  match ev with StoreAccess _ => true | ConsoleError _ => false end.

(** The store calls a computation made, in the order it made them. *)
Definition store_calls {A} (m : t A) : list Event :=
  filter is_store_access (trace m).

End Async.

Notation "x <- m ;; k" := (Async.bind m (fun x => k))
  (at level 61, m at next level, right associativity).
Notation "m ;;; k" := (Async.bind m (fun _ => k))
  (at level 61, right associativity).

Definition graphQLError (msg : string) (c : ErrorCode) : Thrown :=
  ThrowGraphQL (mkGraphQLError msg (Some c)).

(** The code the caller sees on a rejected resolver. *)
Definition thrown_code (e : Thrown) : option ErrorCode :=
  match e with
  | ThrowGraphQL g => code g
  | _ => None
  end.

(** [error instanceof mongoose.Error.CastError] *)
Definition is_CastError (e : Thrown) : bool :=
  match e with ThrowCastError => true | _ => false end.

(** [error instanceof GraphQLError] *)
Definition is_GraphQLError (e : Thrown) : bool :=
  match e with ThrowGraphQL _ => true | _ => false end.

(** ** The store *)

(** A snapshot of the three collections, with the two ways a mongoose call can
    go wrong: [idFormat] decides whether an id casts to the key type of the
    schema (a [CastError] otherwise), [failing] whether the driver rejects the
    call for another reason. *)
Record Store := mkStore {
  Customers : list Customer;
  Products : list Product;
  Orders : list Order;
  idFormat : string -> bool;
  failing : StoreCall -> bool
}.

(** [Model.findById(id)]: the id is cast first, then the query is sent. *)
Definition findById {D} (call : string -> StoreCall) (coll : list D)
    (key : D -> string) (s : Store) (id : string) : Async.t (option D) :=
  Async.emit (StoreAccess (call id)) ;;;
  if negb (idFormat s id) then Async.throw ThrowCastError
  else if failing s (call id) then Async.throw ThrowDriverError
  else Async.ret (find (fun d => (key d =? id)%string) coll).

(** [Order.aggregate(pipeline)]: [run] is the meaning of the pipeline on the
    Order collection; [None] is an error raised by a stage. *)
Definition aggregate {R} (s : Store) (p : Pipeline)
    (run : list Order -> option (list R)) : Async.t (list R) :=
  Async.emit (StoreAccess (Order_aggregate p)) ;;;
  if failing s (Order_aggregate p) then Async.throw ThrowDriverError
  else match run (Orders s) with
       | Some r => Async.ret r
       | None => Async.throw ThrowDriverError
       end.

(** ** Aggregation stages *)

Module Stage.

Section Generic.
Context {D K : Type}.
Variable eqb : K -> K -> bool.
Variable key : D -> K.

(** The keys of the documents, each once, in order of first occurrence. *)
Fixpoint distinct (l : list K) : list K :=
  match l with
  | [] => []
  | k :: t => k :: filter (fun x => negb (eqb x k)) (distinct t)
  end.

(** [$group] with [_id: key]: one group per distinct key, holding the
    documents of that key in the order they came in. *)
Definition group_by (docs : list D) : list (K * list D) :=
  map (fun k => (k, filter (fun d => eqb (key d) k) docs))
      (distinct (map key docs)).
End Generic.

Section Sort.
Context {A : Type}.
Variable geb : A -> A -> bool.

Fixpoint insert_desc (x : A) (l : list A) : list A :=
  match l with
  | [] => [x]
  | y :: t => if geb x y then x :: l else y :: insert_desc x t
  end.

(** [$sort: { field: -1 }], [geb] comparing the field. *)
Definition sort_desc (l : list A) : list A := fold_right insert_desc [] l.
End Sort.

(** [$unwind: '$products'] *)
Definition unwind_products (l : list Order) : list OrderItem :=
  flat_map products l.

(** [$lookup] from the products collection on [_id], then [$unwind] of the
    joined array: one output per matching product, none when nothing
    matches. *)
Definition lookup_unwind {X} (Prods : list Product) (fk : X -> string)
    (l : list X) : list (X * Product) :=
  flat_map (fun x =>
              map (fun p => (x, p))
                  (filter (fun p => (product_id p =? fk x)%string) Prods)) l.

(** [$limit: n] *)
Definition limit {X} (n : Z) (l : list X) : list X := firstn (Z.to_nat n) l.

Fixpoint traverse {X Y} (f : X -> option Y) (l : list X) : option (list Y) :=
  match l with
  | [] => Some []
  | x :: t =>
      match f x, traverse f t with
      | Some y, Some ys => Some (y :: ys)
      | _, _ => None
      end
  end.

End Stage.

(** ** Query 1: getCustomerSpending *)

Record CustomerSpending := mkCustomerSpending {
  cs_customerId : string;
  totalSpent : Q;
  averageOrderValue : Q;
  lastOrderDate : option Z
}.

Module Spending.

Record Group := mkGroup {
  g_id : string;
  g_totalSpent : Q;
  g_orderCount : Z;
  g_lastOrderDate : option Z
}.

Definition matchStage (cid : string) (l : list Order) : list Order :=
  filter (fun o => (customerId o =? cid)%string) l.

Definition sortStage (l : list Order) : list Order :=
  Stage.sort_desc (fun a b => orderDate a >=? orderDate b) l.

Definition groupStage (l : list Order) : list Group :=
  map (fun g : string * list Order =>
         let (k, docs) := g in
         {| g_id := k;
            g_totalSpent := Num.sumQ (map totalAmount docs);
            g_orderCount := Z.of_nat (List.length docs);
            g_lastOrderDate := option_map orderDate (hd_error docs) |})
      (Stage.group_by String.eqb customerId l).

Definition projectStage (g : Group) : option CustomerSpending :=
  match (if g_orderCount g =? 0 then Some 0%Q
         else Num.mongoDivide (g_totalSpent g) (inject_Z (g_orderCount g))) with
  | Some avg =>
      Some {| cs_customerId := g_id g;
              totalSpent := g_totalSpent g;
              averageOrderValue := avg;
              lastOrderDate := g_lastOrderDate g |}
  | None => None
  end.

Definition run (cid : string) (l : list Order) : option (list CustomerSpending) :=
  Stage.traverse projectStage (groupStage (sortStage (matchStage cid l))).

End Spending.

(** [!v] on an [ID] argument: [v] is absent or the empty string. *)
Definition falsy_id (v : option string) : bool :=
  match v with
  | None => true
  | Some s => (s =? "")%string
  end.

Definition getCustomerSpending (s : Store) (customerId : option string)
    : Async.t CustomerSpending :=
  if falsy_id customerId then
    Async.throw (graphQLError "Customer ID is required" BAD_USER_INPUT)
  else
    let cid := match customerId with Some c => c | None => EmptyString end in
    Async.try_catch
      (result <- aggregate s (spendingPipeline cid) (Spending.run cid) ;;
       match result with
       | r0 :: _ =>
           Async.ret {| cs_customerId := cs_customerId r0;
                        totalSpent := Num.toFixed2 (totalSpent r0);
                        averageOrderValue := Num.toFixed2 (averageOrderValue r0);
                        lastOrderDate := lastOrderDate r0 |}
       | [] =>
           customerExists <- findById Customer_findById (Customers s) customer_id s cid ;;
           match customerExists with
           | None => Async.throw (graphQLError "Customer not found" NOT_FOUND)
           | Some _ =>
               Async.ret {| cs_customerId := cid;
                            totalSpent := 0;
                            averageOrderValue := 0;
                            lastOrderDate := None |}
           end
       end)
      (fun error =>
         Async.emit (ConsoleError "Error in getCustomerSpending:") ;;;
         if is_CastError error then
           Async.throw (graphQLError "Invalid Customer ID format" BAD_USER_INPUT)
         else
           Async.throw (graphQLError "Could not fetch customer spending data."
                                     INTERNAL_SERVER_ERROR)).

(** ** Query 2: getTopSellingProducts *)

Record TopProduct := mkTopProduct {
  tp_productId : string;
  tp_name : string;
  totalSold : Z
}.

Module TopSelling.

Record Group := mkGroup {
  g_id : string;
  g_totalSold : Z
}.

Definition groupStage (l : list OrderItem) : list Group :=
  map (fun g : string * list OrderItem =>
         let (k, docs) := g in
         {| g_id := k; g_totalSold := Num.sumZ (map quantity docs) |})
      (Stage.group_by String.eqb productId l).

Definition sortStage (l : list Group) : list Group :=
  Stage.sort_desc (fun a b => g_totalSold a >=? g_totalSold b) l.

Definition projectStage (d : Group * Product) : TopProduct :=
  let (g, productInfo) := d in
  {| tp_productId := g_id g;
     tp_name := product_name productInfo;
     totalSold := g_totalSold g |}.

Definition run (Prods : list Product) (limit : Z) (l : list Order)
    : option (list TopProduct) :=
  Some (map projectStage
          (Stage.lookup_unwind Prods g_id
             (Stage.limit limit
                (sortStage (groupStage (Stage.unwind_products l)))))).

End TopSelling.

(** [!limit || limit <= 0] on an [Int] argument: absent, zero or negative. *)
Definition bad_limit (v : option Z) : bool :=
  match v with
  | None => true
  | Some n => (n =? 0) || (n <=? 0)
  end.

Definition getTopSellingProducts (s : Store) (limit : option Z)
    : Async.t (list TopProduct) :=
  if bad_limit limit then
    Async.throw (graphQLError "Limit must be a positive integer" BAD_USER_INPUT)
  else
    let n := match limit with Some n => n | None => 0 end in
    Async.try_catch
      (aggregate s (topSellingPipeline n) (TopSelling.run (Products s) n))
      (fun error =>
         Async.emit (ConsoleError "Error in getTopSellingProducts:") ;;;
         Async.throw (graphQLError "Could not fetch top selling products."
                                   INTERNAL_SERVER_ERROR)).

(** ** Query 3: getSalesAnalytics *)

Record CategoryRevenue := mkCategoryRevenue {
  cr_category : string;
  revenue : Q
}.

Record SalesAnalytics := mkSalesAnalytics {
  totalRevenue : Q;
  completedOrders : Z;
  categoryBreakdown : list CategoryRevenue
}.

Module Analytics.

(** [{ $match: { status: 'completed', orderDate: { $gte: start, $lt: end } } }] *)
Definition matches (start finish : Z) (o : Order) : bool :=
  Status_eqb (status o) completed
  && ((orderDate o >=? start) && (orderDate o <? finish)).

Definition matchStage (start finish : Z) (l : list Order) : list Order :=
  filter (matches start finish) l.

Record Overall := mkOverall {
  o_totalRevenue : Q;
  o_completedOrders : Z
}.

(** [$group] with [_id: null]: a single group of all the documents that
    reach the stage, and no group when none does. *)
Definition overallGroup (l : list Order) : list Overall :=
  map (fun g : unit * list Order =>
         {| o_totalRevenue := Num.sumQ (map totalAmount (snd g));
            o_completedOrders := Z.of_nat (List.length (snd g)) |})
      (Stage.group_by (fun _ _ : unit => true) (fun _ : Order => tt) l).

Definition overall (start finish : Z) (l : list Order) : option (list Overall) :=
  Some (overallGroup (matchStage start finish l)).

Record ItemRevenue := mkItemRevenue {
  i_productId : string;
  itemRevenue : Q
}.

Definition itemProject (it : OrderItem) : ItemRevenue :=
  {| i_productId := productId it;
     itemRevenue := inject_Z (quantity it) * priceAtPurchase it |}.

Definition categoryGroup (l : list (ItemRevenue * Product)) : list CategoryRevenue :=
  map (fun g : string * list (ItemRevenue * Product) =>
         let (k, docs) := g in
         {| cr_category := k;
            revenue := Num.sumQ (map (fun d => itemRevenue (fst d)) docs) |})
      (Stage.group_by String.eqb (fun d => category (snd d)) l).

Definition roundProject (c : CategoryRevenue) : CategoryRevenue :=
  {| cr_category := cr_category c; revenue := Num.mongoRound2 (revenue c) |}.

Definition sortStage (l : list CategoryRevenue) : list CategoryRevenue :=
  Stage.sort_desc (fun a b => Qle_bool (revenue b) (revenue a)) l.

Definition breakdown (Prods : list Product) (start finish : Z) (l : list Order)
    : option (list CategoryRevenue) :=
  Some (sortStage
          (map roundProject
             (categoryGroup
                (Stage.lookup_unwind Prods i_productId
                   (map itemProject
                      (Stage.unwind_products (matchStage start finish l))))))).

End Analytics.

Section SalesAnalyticsQuery.

(** [new Date(string)].getTime(): the time value the platform parses out of
    a string, [None] when it yields the Invalid Date. *)
Variable newDate : string -> option Z.

Definition badDates : Thrown :=
  graphQLError
    "Invalid date format. Please use ISO 8601 format (YYYY-MM-DDTHH:mm:ss.sssZ)"
    BAD_USER_INPUT.

Definition getSalesAnalytics (s : Store) (startDate endDate : string)
    : Async.t SalesAnalytics :=
  Async.try_catch
    (match newDate startDate, newDate endDate with
     | Some start, Some finish =>
         if start >=? finish then
           Async.throw (graphQLError "Start date must be before end date"
                                     BAD_USER_INPUT)
         else
           r <- Async.all2
                  (aggregate s (overallAnalyticsPipeline start finish)
                             (Analytics.overall start finish))
                  (aggregate s (categoryBreakdownPipeline start finish)
                             (Analytics.breakdown (Products s) start finish)) ;;
           let (overallResult, categoryResult) := r in
           Async.ret
             {| totalRevenue :=
                  match overallResult with
                  | o :: _ => Num.toFixed2 (Analytics.o_totalRevenue o)
                  | [] => 0
                  end;
                completedOrders :=
                  match overallResult with
                  | o :: _ => Analytics.o_completedOrders o
                  | [] => 0
                  end;
                categoryBreakdown :=
                  map (fun item =>
                         {| cr_category := cr_category item;
                            revenue := Num.toFixed2 (revenue item) |})
                      categoryResult |}
     | _, _ => Async.throw badDates
     end)
    (fun error =>
       Async.emit (ConsoleError "Error in getSalesAnalytics:") ;;;
       if is_GraphQLError error then Async.throw error
       else Async.throw (graphQLError "Could not fetch sales analytics."
                                      INTERNAL_SERVER_ERROR)).

End SalesAnalyticsQuery.

(** ** Point lookups *)

Section PointLookup.
Context {D : Type}.
Variable call : string -> StoreCall.
Variable coll : Store -> list D.
Variable key : D -> string.
Variables notFound logLabel invalidFormat generic : string.

(** The common shape of [getCustomer], [getProduct] and [getOrder]. *)
Definition lookup (s : Store) (id : string) : Async.t D :=
  Async.try_catch
    (found <- findById call (coll s) key s id ;;
     match found with
     | None => Async.throw (graphQLError notFound NOT_FOUND)
     | Some d => Async.ret d
     end)
    (fun error =>
       Async.emit (ConsoleError logLabel) ;;;
       if is_CastError error then
         Async.throw (graphQLError invalidFormat BAD_USER_INPUT)
       else
         Async.throw (ThrowGraphQL (mkGraphQLError generic None))).
End PointLookup.

Definition getCustomer : Store -> string -> Async.t Customer :=
  lookup Customer_findById Customers customer_id
         "Customer not found" "Error fetching customer:"
         "Invalid Customer ID format" "Error fetching customer".

Definition getProduct : Store -> string -> Async.t Product :=
  lookup Product_findById Products product_id
         "Product not found" "Error fetching product:"
         "Invalid Product ID format" "Error fetching product".

Definition getOrder : Store -> string -> Async.t Order :=
  lookup Order_findById Orders order_id
         "Order not found" "Error fetching order:"
         "Invalid Order ID format" "Error fetching order".

(** ** Relationship resolvers (Order.customer, OrderItem.product) *)

Module Resolve.

Local Open Scope string_scope.

(** [Order.customer(parent)]: a failed call is logged and resolves to null. *)
Definition Order_customer (s : Store) (parent : Order) : Async.t (option Customer) :=
  Async.try_catch
    (findById Customer_findById (Customers s) customer_id s (customerId parent))
    (fun error =>
       Async.emit (ConsoleError ("Error fetching customer " ++ customerId parent
                                 ++ " for order " ++ order_id parent ++ ":")) ;;;
       Async.ret None).

(** [OrderItem.product(parent)] *)
Definition OrderItem_product (s : Store) (parent : OrderItem)
    : Async.t (option Product) :=
  Async.try_catch
    (findById Product_findById (Products s) product_id s (productId parent))
    (fun error =>
       Async.emit (ConsoleError ("Error fetching product " ++ productId parent
                                 ++ " for order item:")) ;;;
       Async.ret None).

End Resolve.

(** ** The Date scalar *)

Module DateScalar.

(** The JavaScript values the scalar tells apart: a string, a [Date] (with
    its time value, [None] for the Invalid Date) and everything else. *)
Inductive JsValue :=
| JsUndefined
| JsNull
| JsBoolean (b : bool)
| JsNumber (n : Q)
| JsString (v : string)
| JsDate (time : option Z)
| JsObject.

(** The value nodes of a GraphQL document, by [Kind]. *)
Inductive ValueNode :=
| VariableNode (name : string)
| IntValue (value : string)
| FloatValue (value : string)
| StringValue (value : string)
| BooleanValue (value : bool)
| NullValue
| EnumValue (value : string)
| ListValue
| ObjectValue.

Inductive Raised :=
| RaiseGraphQL (e : GraphQLError)
| RaiseRangeError.

Inductive Result (A : Type) :=
| Ok (a : A)
| Raise (e : Raised).
Arguments Ok {A} a.
Arguments Raise {A} e.

Section Platform.

(** [new Date(string)] and [Date.prototype.toISOString]; the latter raises a
    RangeError on the Invalid Date. *)
Variable newDate : string -> option Z.
Variable toISOString : Z -> string.

Definition serialize (value : JsValue) : Result string :=
  match value with
  | JsDate (Some t) => Ok (toISOString t)
  | JsDate None => Raise RaiseRangeError
  | _ => Raise (RaiseGraphQL
                  (mkGraphQLError
                     "GraphQL Date Scalar serializer expected a `Date` object" None))
  end.

Definition parseValue (value : JsValue) : Result JsValue :=
  match value with
  | JsString v => Ok (JsDate (newDate v))
  | _ => Raise (RaiseGraphQL
                  (mkGraphQLError "GraphQL Date Scalar parser expected a `string`" None))
  end.

(** [null] is [None]. *)
Definition parseLiteral (ast : ValueNode) : option JsValue :=
  match ast with
  | StringValue value => Some (JsDate (newDate value))
  | _ => None
  end.

End Platform.

End DateScalar.

(** ** Vocabulary of the statements *)

(** Every call reaches the store and is answered. *)
Definition healthy (s : Store) : Prop := forall c, failing s c = false.

(** The resolver rejects with a [GraphQLError] carrying code [c]. *)
Definition rejects {A} (m : Async.t A) (c : ErrorCode) : Prop :=
  exists g, Async.outcome m = Throw (ThrowGraphQL g) /\ code g = Some c.

(** The orders of a customer, as they lie in the collection. *)
Definition orders_of (s : Store) (cid : string) : list Order :=
  filter (fun o => (customerId o =? cid)%string) (Orders s).

(** MongoDB keeps [_id] unique within a collection. *)
Definition unique_product_ids (s : Store) : Prop :=
  NoDup (map product_id (Products s)).

(** All the line items of the store that name product [pid]. *)
Definition items_of (s : Store) (pid : string) : list OrderItem :=
  filter (fun it => (productId it =? pid)%string) (Stage.unwind_products (Orders s)).

(** No product record carries the id [pid]. *)
Definition unmatched (s : Store) (pid : string) : Prop :=
  forall p, In p (Products s) -> product_id p <> pid.

(** The store with the line items that name [pid] taken out of every order,
    and the store with another Order collection. *)
Definition drop_items (pid : string) (o : Order) : Order :=
  {| order_id := order_id o;
     customerId := customerId o;
     products := filter (fun it => negb (productId it =? pid)%string) (products o);
     totalAmount := totalAmount o;
     orderDate := orderDate o;
     status := status o |}.

Definition with_orders (s : Store) (l : list Order) : Store :=
  {| Customers := Customers s;
     Products := Products s;
     Orders := l;
     idFormat := idFormat s;
     failing := failing s |}.

Definition without_items (pid : string) (s : Store) : Store :=
  with_orders s (map (drop_items pid) (Orders s)).

(** What the two guards of getSalesAnalytics refuse: a date that does not
    parse, or a start that is not strictly before the end. *)
Definition dates_refused (newDate : string -> option Z)
    (startDate endDate : string) : Prop :=
  newDate startDate = None \/ newDate endDate = None
  \/ exists a b, newDate startDate = Some a /\ newDate endDate = Some b /\ a >= b.

(** The summary over a non-empty list of orders whose latest date is [last],
    and the summary of a customer without orders. *)
Definition summary_of (cid : string) (os : list Order) (last : Z) : CustomerSpending :=
  {| cs_customerId := cid;
     totalSpent := Num.toFixed2 (Num.sumQ (map totalAmount os));
     averageOrderValue :=
       Num.toFixed2 (Num.sumQ (map totalAmount os)
                     / inject_Z (Z.of_nat (List.length os)));
     lastOrderDate := Some last |}.

Definition zero_summary (cid : string) : CustomerSpending :=
  {| cs_customerId := cid;
     totalSpent := 0;
     averageOrderValue := 0;
     lastOrderDate := None |}.

(** [last] is the date of a latest order of [os]. *)
Definition latest_date (os : list Order) (last : Z) : Prop :=
  (exists o, In o os /\ orderDate o = last)
  /\ forall o, In o os -> orderDate o <= last.

(** The line items of a list of orders joined to their products, and the
    category breakdown the resolver reports for the orders it counts. *)
Definition joined_items (Prods : list Product) (counted : list Order)
    : list (Analytics.ItemRevenue * Product) :=
  Stage.lookup_unwind Prods Analytics.i_productId
    (map Analytics.itemProject (Stage.unwind_products counted)).

Definition breakdown_of (Prods : list Product) (counted : list Order)
    : list CategoryRevenue :=
  map (fun item => {| cr_category := cr_category item;
                      revenue := Num.toFixed2 (revenue item) |})
      (Analytics.sortStage
         (map Analytics.roundProject
              (Analytics.categoryGroup (joined_items Prods counted)))).

(** The analytics the resolver reports for the orders it counts. *)
Definition analytics_of (Prods : list Product) (counted : list Order)
    : SalesAnalytics :=
  {| totalRevenue :=
       match counted with
       | [] => 0
       | _ :: _ => Num.toFixed2 (Num.sumQ (map totalAmount counted))
       end;
     completedOrders := Z.of_nat (List.length counted);
     categoryBreakdown := breakdown_of Prods counted |}.

(** A rejection that carries one of the two codes the analytics resolvers
    use for their own failures. *)
Definition coded (e : Thrown) : Prop :=
  exists g, e = ThrowGraphQL g
            /\ (code g = Some BAD_USER_INPUT \/ code g = Some INTERNAL_SERVER_ERROR).

(** The store with the status of every order rewritten, with the line items
    of every order rewritten, and with another product collection. *)
Definition set_status (f : Order -> Status) (o : Order) : Order :=
  {| order_id := order_id o;
     customerId := customerId o;
     products := products o;
     totalAmount := totalAmount o;
     orderDate := orderDate o;
     status := f o |}.

Definition set_items (f : Order -> list OrderItem) (o : Order) : Order :=
  {| order_id := order_id o;
     customerId := customerId o;
     products := f o;
     totalAmount := totalAmount o;
     orderDate := orderDate o;
     status := status o |}.

Definition with_products (s : Store) (ps : list Product) : Store :=
  {| Customers := Customers s;
     Products := ps;
     Orders := Orders s;
     idFormat := idFormat s;
     failing := failing s |}.

(** The category a line item falls in: that of the first product record with
    its productId. *)
Definition category_of (Prods : list Product) (it : OrderItem) : option string :=
  option_map category
             (find (fun p => (product_id p =? productId it)%string) Prods).

Definition in_category (Prods : list Product) (c : string) (it : OrderItem) : bool :=
  match category_of Prods it with
  | Some c' => (c' =? c)%string
  | None => false
  end.

(** What a line item sold for. *)
Definition item_revenue (it : OrderItem) : Q :=
  inject_Z (quantity it) * priceAtPurchase it.

(** Every line item of the store names a product on record. *)
Definition all_matched (s : Store) : Prop :=
  forall it, In it (Stage.unwind_products (Orders s)) ->
             exists p, In p (Products s) /\ product_id p = productId it.

(** The product ids the line items of the store name, each once. *)
Definition products_sold (s : Store) : list string :=
  Stage.distinct String.eqb (map productId (Stage.unwind_products (Orders s))).


(** The store with another customer collection and another key format. *)
Definition with_directory (s : Store) (cs : list Customer)
    (fmt : string -> bool) : Store :=
  {| Customers := cs;
     Products := Products s;
     Orders := Orders s;
     idFormat := fmt;
     failing := failing s |}.

(** ** Sample data *)

Module Sample.

Local Open Scope string_scope.

Definition customers : list Customer :=
  [ mkCustomer "c1" "Ada" "ada@example.com" (Some 36) (Some "London") None;
    mkCustomer "c3" "Bob" "bob@example.com" None None None ].

Definition catalogue : list Product :=
  [ mkProduct "p1" "Kettle" "kitchen" (20 # 1) 7;
    mkProduct "p2" "Lamp" "lighting" (5 # 1) 3 ].

(** Orders A and B belong to customer c1; order C names a customer and a
    product that have no record, and is still pending. *)
Definition orderA : Order :=
  mkOrder "A" "c1" [mkOrderItem "p1" 3 (20 # 1); mkOrderItem "p2" 8 (5 # 1)]
          (100 # 1) 1704412800000 completed.
Definition orderB : Order :=
  mkOrder "B" "c1" [mkOrderItem "p1" 5 (10 # 1)] (50 # 1) 1704844800000 completed.
Definition orderC : Order :=
  mkOrder "C" "c2" [mkOrderItem "p9" 50 (1 # 4)] (1250 # 100) 1704844800000 pending.

Definition store : Store :=
  mkStore customers catalogue [orderA; orderB; orderC]
          (fun _ => true) (fun _ => false).

(** Three orders of 10.00, 10.00 and 10.01 by one customer. *)
Definition thirds : Store :=
  mkStore customers catalogue
          [ mkOrder "D" "c1" [] (10 # 1) 1 completed;
            mkOrder "E" "c1" [] (10 # 1) 2 completed;
            mkOrder "F" "c1" [] (1001 # 100) 3 completed ]
          (fun _ => true) (fun _ => false).

(** A store whose keys are 24 characters long. *)
Definition strict : Store :=
  mkStore customers catalogue [orderA; orderB; orderC]
          (fun id => (String.length id =? 24)%nat) (fun _ => false).

(** A completed order with one line item of a known product and one of a
    product that has no record. *)
Definition orphaned : Store :=
  mkStore customers catalogue
          [ orderA;
            mkOrder "K" "c3" [mkOrderItem "p9" 40 (1 # 4); mkOrderItem "p2" 2 (5 # 1)]
                    (20 # 1) 1704844800000 completed ]
          (fun _ => true) (fun _ => false).

(** A platform clock that knows three dates. *)
Definition newDate (v : string) : option Z :=
  if v =? "2024-01-05" then Some 1704412800000
  else if v =? "2024-01-10" then Some 1704844800000
  else if v =? "2024-02-01" then Some 1706745600000
  else None.

(** The ISO strings of the dates that clock knows. *)
Definition toISOString (t : Z) : string :=
  if (t =? 1704412800000)%Z then "2024-01-05T00:00:00.000Z"
  else if (t =? 1704844800000)%Z then "2024-01-10T00:00:00.000Z"
  else "2024-02-01T00:00:00.000Z".

Definition isoDate (v : string) : option Z :=
  if v =? "2024-01-05T00:00:00.000Z" then Some 1704412800000
  else if v =? "2024-01-10T00:00:00.000Z" then Some 1704844800000
  else if v =? "2024-02-01T00:00:00.000Z" then Some 1706745600000
  else None.

(** The sample store with every call failing. *)
Definition down : Store :=
  mkStore customers catalogue [orderA; orderB; orderC]
          (fun _ => true) (fun _ => true).

End Sample.

(** * Properties *)

(** ** Rounding *)

Section Rounding.

Lemma toFixed2_two_decimals (x : Q) : Num.two_decimals (Num.toFixed2 x).
Proof.
  unfold Num.two_decimals, Num.toFixed2.
  destruct (Qle_bool 0 x); eexists; reflexivity.
Qed.

Lemma mongoRound2_two_decimals (x : Q) : Num.two_decimals (Num.mongoRound2 x).
Proof. exists (Num.round_half_even (x * 100)). reflexivity. Qed.

(** Rounding does not tell equal rationals apart. *)
Lemma toFixed2_Qeq (x y : Q) : (x == y)%Q -> Num.toFixed2 x = Num.toFixed2 y.
Proof.
  intros E. unfold Num.toFixed2.
  assert (F : Qfloor (Qabs x * 100 + (1 # 2)) = Qfloor (Qabs y * 100 + (1 # 2)))
    by (apply Qfloor_comp; rewrite E; reflexivity).
  assert (B : Qle_bool 0 x = Qle_bool 0 y).
  { destruct (Qle_bool 0 x) eqn:Hx, (Qle_bool 0 y) eqn:Hy; try reflexivity.
    - apply Qle_bool_iff in Hx. rewrite E in Hx. apply Qle_bool_iff in Hx. congruence.
    - apply Qle_bool_iff in Hy. rewrite <- E in Hy. apply Qle_bool_iff in Hy. congruence. }
  rewrite F, B. reflexivity.
Qed.

Lemma two_decimals_zero : Num.two_decimals 0.
Proof. exists 0. reflexivity. Qed.

Lemma mongoDivide_nonzero (a b : Q) :
  ~ (b == 0)%Q -> Num.mongoDivide a b = Some (a / b)%Q.
Proof.
  intros H. unfold Num.mongoDivide.
  destruct (Qeq_bool b 0) eqn:E; [apply Qeq_bool_iff in E; contradiction | reflexivity].
Qed.

End Rounding.

(** ** Sums *)

Section Sums.

Lemma fold_Qplus_acc (l : list Q) (a : Q) :
  (fold_left Qplus l a == a + Num.sumQ l)%Q.
Proof.
  unfold Num.sumQ. revert a.
  induction l as [|x l IH]; intros a; simpl.
  - ring.
  - rewrite IH, (IH (0 + x)%Q). ring.
Qed.

Lemma sumQ_cons (x : Q) (l : list Q) : (Num.sumQ (x :: l) == x + Num.sumQ l)%Q.
Proof.
  unfold Num.sumQ at 1. simpl. rewrite fold_Qplus_acc. ring.
Qed.

Lemma sumQ_Permutation (l l' : list Q) :
  Permutation l l' -> (Num.sumQ l == Num.sumQ l')%Q.
Proof.
  induction 1.
  - reflexivity.
  - rewrite !sumQ_cons, IHPermutation. reflexivity.
  - rewrite !sumQ_cons. ring.
  - etransitivity; eassumption.
Qed.

End Sums.

(** ** Grouping and sorting stages *)

Section StageFacts.

Context {D K : Type}.
Variable eqb : K -> K -> bool.
Variable key : D -> K.
Hypothesis eqb_eq : forall a b, eqb a b = true <-> a = b.

Lemma distinct_In (l : list K) (k : K) : In k (Stage.distinct eqb l) <-> In k l.
Proof.
  induction l as [|x l IH]; simpl; [tauto|].
  rewrite filter_In, IH.
  split.
  - intros [H|[H _]]; auto.
  - intros [H|H]; [left; exact H|].
    destruct (eqb k x) eqn:E.
    + left. symmetry. apply eqb_eq. exact E.
    + right. split; [exact H | reflexivity].
Qed.

Lemma distinct_NoDup (l : list K) : NoDup (Stage.distinct eqb l).
Proof.
  induction l as [|x l IH]; simpl; constructor.
  - rewrite filter_In. intros [_ H].
    rewrite (proj2 (eqb_eq x x) eq_refl) in H. discriminate.
  - apply NoDup_filter. exact IH.
Qed.

(** A group holds exactly the documents of its key, and some document
    has that key. *)
Lemma group_by_In (docs : list D) (k : K) (g : list D) :
  In (k, g) (Stage.group_by eqb key docs) ->
  g = filter (fun d => eqb (key d) k) docs /\ In k (map key docs).
Proof.
  unfold Stage.group_by. rewrite in_map_iff.
  intros (k' & E & Hin). inversion E; subst.
  split; [reflexivity|]. apply distinct_In. exact Hin.
Qed.

Lemma group_by_keys_NoDup (docs : list D) :
  NoDup (map fst (Stage.group_by eqb key docs)).
Proof.
  unfold Stage.group_by. rewrite map_map. simpl. rewrite map_id.
  apply distinct_NoDup.
Qed.

Lemma distinct_const (k : K) (l : list K) :
  (forall x, In x l -> x = k) -> l <> [] -> Stage.distinct eqb l = [k].
Proof.
  induction l as [|x l IH]; intros Hall Hne; [congruence|].
  simpl. rewrite (Hall x (or_introl eq_refl)).
  destruct l as [|y l'].
  - reflexivity.
  - rewrite IH; [|intros z Hz; apply Hall; right; exact Hz|discriminate].
    simpl. rewrite (proj2 (eqb_eq k k) eq_refl). reflexivity.
Qed.

(** Documents that all carry one key form a single group, themselves. *)
Lemma group_by_const (k : K) (docs : list D) :
  (forall d, In d docs -> key d = k) -> docs <> [] ->
  Stage.group_by eqb key docs = [(k, docs)].
Proof.
  intros Hall Hne. unfold Stage.group_by.
  rewrite (distinct_const k).
  - simpl. f_equal. f_equal.
    clear Hne. induction docs as [|d l IH]; [reflexivity|].
    simpl. rewrite (Hall d (or_introl eq_refl)), (proj2 (eqb_eq k k) eq_refl).
    f_equal. apply IH. intros x Hx. apply Hall. right. exact Hx.
  - intros x Hx. apply in_map_iff in Hx. destruct Hx as (d & <- & Hd). auto.
  - destruct docs; [congruence | discriminate].
Qed.

Lemma group_by_nil : Stage.group_by eqb key [] = [].
Proof. reflexivity. Qed.

End StageFacts.

Section SortFacts.

Context {A : Type}.
Variable geb : A -> A -> bool.
Hypothesis geb_total : forall x y, geb x y = false -> geb y x = true.

Local Abbreviation R := (fun x y : A => geb x y = true).

Lemma insert_desc_Permutation (x : A) (l : list A) :
  Permutation (Stage.insert_desc geb x l) (x :: l).
Proof.
  induction l as [|y l IH]; simpl; [reflexivity|].
  destruct (geb x y); [reflexivity|].
  rewrite IH. apply perm_swap.
Qed.

Lemma sort_desc_Permutation (l : list A) : Permutation (Stage.sort_desc geb l) l.
Proof.
  induction l as [|x l IH]; simpl; [reflexivity|].
  rewrite insert_desc_Permutation, IH. reflexivity.
Qed.

Lemma insert_desc_Sorted (x : A) (l : list A) :
  Sorted R l -> Sorted R (Stage.insert_desc geb x l).
Proof.
  induction 1 as [|y l Hs IH Hd]; simpl.
  - repeat constructor.
  - destruct (geb x y) eqn:E.
    + constructor; [constructor; assumption | constructor; exact E].
    + constructor; [exact IH|].
      destruct Hd as [|z l' Hyz]; simpl.
      * constructor. apply geb_total. exact E.
      * destruct (geb x z); constructor; [apply geb_total; exact E | exact Hyz].
Qed.

Lemma sort_desc_Sorted (l : list A) : Sorted R (Stage.sort_desc geb l).
Proof.
  induction l as [|x l IH]; simpl; [constructor | apply insert_desc_Sorted; exact IH].
Qed.

Lemma sort_desc_nil_iff (l : list A) : Stage.sort_desc geb l = [] <-> l = [].
Proof.
  split; intros H; [|subst; reflexivity].
  pose proof (sort_desc_Permutation l) as P. rewrite H in P.
  apply Permutation_nil in P. exact P.
Qed.

End SortFacts.

(** ** Validation of the arguments *)

Section Validation.

Lemma bad_limit_spec (v : option Z) :
  bad_limit v = true <-> v = None \/ exists n, v = Some n /\ n <= 0.
Proof.
  destruct v as [n|]; simpl.
  - rewrite orb_true_iff, Z.eqb_eq, Z.leb_le. split.
    + intros H. right. exists n. split; [reflexivity | lia].
    + intros [H|(m & E & H)]; [discriminate|]. inversion E; subst. right. exact H.
  - split; auto.
Qed.

(** C8. When [limit] is absent, zero or negative, getTopSellingProducts
    rejects with BAD_USER_INPUT, and it does so with an empty trace: no
    call to the store, and not even a log line, precedes the rejection. *)
Theorem getTopSellingProducts_rejects_bad_limit (s : Store) (limit : option Z) :
  limit = None \/ (exists n, limit = Some n /\ n <= 0) ->
  rejects (getTopSellingProducts s limit) BAD_USER_INPUT
  /\ Async.trace (getTopSellingProducts s limit) = []
  /\ Async.store_calls (getTopSellingProducts s limit) = [].
Proof.
  intros H. apply bad_limit_spec in H.
  unfold getTopSellingProducts. rewrite H.
  repeat split. eexists. split; reflexivity.
Qed.

Lemma getTopSellingProducts_rejects_bad_limit_witness :
  rejects (getTopSellingProducts Sample.store (Some (-3))) BAD_USER_INPUT
  /\ Async.trace (getTopSellingProducts Sample.store (Some (-3))) = []
  /\ Async.store_calls (getTopSellingProducts Sample.store (Some (-3))) = [].
Proof.
  apply (getTopSellingProducts_rejects_bad_limit Sample.store (Some (-3))).
  right. exists (-3). split; [reflexivity | lia].
Defined.

Variable newDate : string -> option Z.

Lemma aggregate_outcome {R} (s : Store) (p : Pipeline)
    (run : list Order -> option (list R)) :
  aggregate s p run =
  ([StoreAccess (Order_aggregate p)],
   if failing s (Order_aggregate p) then Throw ThrowDriverError
   else match run (Orders s) with
        | Some r => Return r
        | None => Throw ThrowDriverError
        end).
Proof.
  unfold aggregate. simpl.
  destruct (failing s (Order_aggregate p)); [reflexivity|].
  destruct (run (Orders s)); reflexivity.
Qed.

(** C7. getSalesAnalytics rejects with BAD_USER_INPUT exactly when a date
    does not parse or the start is not strictly before the end, whatever
    the store does; and a rejected call has made no call to the store. *)
Theorem getSalesAnalytics_rejects_iff (s : Store) (startDate endDate : string) :
  (rejects (getSalesAnalytics newDate s startDate endDate) BAD_USER_INPUT
   <-> dates_refused newDate startDate endDate)
  /\ (dates_refused newDate startDate endDate ->
      Async.store_calls (getSalesAnalytics newDate s startDate endDate) = []).
Proof.
  unfold dates_refused, getSalesAnalytics, rejects.
  destruct (newDate startDate) as [a|] eqn:Ea, (newDate endDate) as [b|] eqn:Eb;
    try (split; [split; [intros _; auto | intros _; eexists; split; reflexivity]
                | intros _; reflexivity]).
  destruct (a >=? b) eqn:G.
  - rewrite Z.geb_leb in G. apply Z.leb_le in G. split.
    + split.
      * intros _. right. right. exists a, b. repeat split. lia.
      * intros _. eexists. split; reflexivity.
    + intros _. reflexivity.
  - assert (L : a < b) by (rewrite Z.geb_leb in G; apply Z.leb_gt in G; exact G).
    assert (N : ~ (None = Some a \/ None = Some b
                   \/ exists a' b', Some a = Some a' /\ Some b = Some b' /\ a' >= b')).
    { intros [H|[H|(a' & b' & H1 & H2 & H3)]]; try discriminate.
      inversion H1; inversion H2; subst. lia. }
    split.
    + split.
      * intros (g & Ho & Hc). exfalso. revert Ho Hc.
        rewrite !aggregate_outcome.
        destruct (failing s (Order_aggregate (overallAnalyticsPipeline a b)));
          destruct (failing s (Order_aggregate (categoryBreakdownPipeline a b)));
          simpl; intros Ho Hc; inversion Ho; subst; discriminate.
      * intros [H|[H|(a' & b' & H1 & H2 & H3)]]; try discriminate.
        inversion H1; inversion H2; subst. lia.
    + intros [H|[H|(a' & b' & H1 & H2 & H3)]]; try discriminate.
      inversion H1; inversion H2; subst. lia.
Qed.

End Validation.

(** ** Store calls *)

Section StoreCalls.

Lemma findById_outcome {D} (call : string -> StoreCall) (coll : list D)
    (key : D -> string) (s : Store) (id : string) :
  findById call coll key s id =
  ([StoreAccess (call id)],
   if negb (idFormat s id) then Throw ThrowCastError
   else if failing s (call id) then Throw ThrowDriverError
   else Return (find (fun d => (key d =? id)%string) coll)).
Proof.
  unfold findById. simpl.
  destruct (idFormat s id); simpl; [|reflexivity].
  destruct (failing s (call id)); reflexivity.
Qed.

Lemma find_absent {D} (key : D -> string) (id : string) (coll : list D) :
  (forall d, In d coll -> key d <> id) ->
  find (fun d => (key d =? id)%string) coll = None.
Proof.
  intros H. destruct (find _ coll) as [d|] eqn:E; [|reflexivity].
  apply find_some in E. destruct E as [Hin Heq].
  apply String.eqb_eq in Heq. exfalso. exact (H d Hin Heq).
Qed.

Lemma find_present {D} (key : D -> string) (id : string) (coll : list D) :
  (exists d, In d coll /\ key d = id) ->
  exists d, find (fun d => (key d =? id)%string) coll = Some d.
Proof.
  intros (d & Hin & Hk).
  destruct (find _ coll) as [d'|] eqn:E; [exists d'; reflexivity|].
  exfalso. pose proof (find_none _ _ E d Hin) as N. simpl in N.
  rewrite Hk, String.eqb_refl in N. discriminate.
Qed.

Lemma filter_none {X} (f : X -> bool) (l : list X) :
  (forall x, In x l -> f x = false) -> filter f l = [].
Proof.
  induction l as [|x l IH]; intros H; [reflexivity|].
  simpl. rewrite (H x (or_introl eq_refl)). apply IH.
  intros y Hy. apply H. right. exact Hy.
Qed.

End StoreCalls.

(** ** Point lookups *)

Section PointLookupFacts.

Context {D : Type}.
Variable call : string -> StoreCall.
Variable coll : Store -> list D.
Variable key : D -> string.
Variables notFound logLabel invalidFormat generic : string.

Local Abbreviation get := (lookup call coll key notFound logLabel invalidFormat generic).

(** An id that does not fit the key format is refused as BAD_USER_INPUT. *)
Lemma lookup_malformed (s : Store) (id : string) :
  idFormat s id = false -> rejects (get s id) BAD_USER_INPUT.
Proof.
  intros H. unfold lookup, rejects. rewrite findById_outcome, H. simpl.
  eexists. split; reflexivity.
Qed.

(** A well-formed id that names no document: the NOT_FOUND error thrown
    inside the [try] is caught by the resolver's own [catch] and replaced
    by the generic error, which carries no code. *)
Lemma lookup_absent (s : Store) (id : string) :
  idFormat s id = true -> failing s (call id) = false ->
  (forall d, In d (coll s) -> key d <> id) ->
  get s id =
  ([StoreAccess (call id); ConsoleError logLabel],
   Throw (ThrowGraphQL (mkGraphQLError generic None))).
Proof.
  intros Hf Hc Habs. unfold lookup.
  rewrite findById_outcome, Hf, Hc, (find_absent key id (coll s) Habs).
  reflexivity.
Qed.

(** No point lookup ever rejects with NOT_FOUND. *)
Lemma lookup_never_NOT_FOUND (s : Store) (id : string) :
  ~ rejects (get s id) NOT_FOUND.
Proof.
  unfold lookup, rejects. rewrite findById_outcome.
  destruct (idFormat s id); simpl;
    [destruct (failing s (call id)); simpl;
     [|destruct (find _ (coll s)); simpl] |];
    intros (g & Ho & Hc); inversion Ho; subst; discriminate.
Qed.

End PointLookupFacts.

(** C2. On the sample store, whose key format accepts every string, no
    customer, product or order is named "zz"; each of the three lookups
    rejects this id with the generic error, which carries no code, after it
    has logged the NOT_FOUND error it had thrown itself. *)
Theorem point_lookups_absent_id_generic_error :
  getCustomer Sample.store "zz" =
    ([StoreAccess (Customer_findById "zz"); ConsoleError "Error fetching customer:"],
     Throw (ThrowGraphQL (mkGraphQLError "Error fetching customer" None)))
  /\ getProduct Sample.store "zz" =
    ([StoreAccess (Product_findById "zz"); ConsoleError "Error fetching product:"],
     Throw (ThrowGraphQL (mkGraphQLError "Error fetching product" None)))
  /\ getOrder Sample.store "zz" =
    ([StoreAccess (Order_findById "zz"); ConsoleError "Error fetching order:"],
     Throw (ThrowGraphQL (mkGraphQLError "Error fetching order" None)))
  /\ ~ rejects (getCustomer Sample.store "zz") NOT_FOUND
  /\ ~ rejects (getProduct Sample.store "zz") NOT_FOUND
  /\ ~ rejects (getOrder Sample.store "zz") NOT_FOUND.
Proof.
  repeat split; try reflexivity; apply lookup_never_NOT_FOUND.
Qed.

(** The other half of the contract of the lookups holds: on a store with
    24-character keys the id "zz" is refused as BAD_USER_INPUT. *)
Example point_lookups_malformed_id :
  rejects (getCustomer Sample.strict "zz") BAD_USER_INPUT
  /\ rejects (getProduct Sample.strict "zz") BAD_USER_INPUT
  /\ rejects (getOrder Sample.strict "zz") BAD_USER_INPUT.
Proof. repeat split; apply lookup_malformed; reflexivity. Qed.

(** ** The spending pipeline *)

Section SpendingFacts.

Variable cid : string.

Lemma matchStage_customer (l : list Order) (o : Order) :
  In o (Spending.matchStage cid l) <-> In o l /\ customerId o = cid.
Proof.
  unfold Spending.matchStage. rewrite filter_In, String.eqb_eq. reflexivity.
Qed.

Lemma sortStage_Permutation (l : list Order) :
  Permutation (Spending.sortStage l) l.
Proof. apply sort_desc_Permutation. Qed.

(** The first document after [$sort: { orderDate: -1 }] is a latest one. *)
Lemma sortStage_head_latest (l rest : list Order) (o0 : Order) :
  Spending.sortStage l = o0 :: rest ->
  In o0 l /\ forall o, In o l -> orderDate o <= orderDate o0.
Proof.
  intros E.
  pose proof (sortStage_Permutation l) as P. rewrite E in P.
  split; [apply (Permutation_in _ P); left; reflexivity|].
  assert (S : Sorted (fun x y => (orderDate x >=? orderDate y) = true) (o0 :: rest)).
  { rewrite <- E. apply sort_desc_Sorted.
    intros x y H. rewrite Z.geb_leb in *. apply Z.leb_gt in H. apply Z.leb_le. lia. }
  apply Sorted_StronglySorted in S.
  - apply StronglySorted_inv in S. destruct S as [_ F].
    rewrite Forall_forall in F.
    intros o Ho. apply (Permutation_in _ (Permutation_sym P)) in Ho.
    destruct Ho as [<-|Ho]; [lia|].
    specialize (F o Ho). rewrite Z.geb_leb in F. apply Z.leb_le in F. exact F.
  - intros x y z H1 H2. rewrite Z.geb_leb in *.
    apply Z.leb_le in H1, H2. apply Z.leb_le. lia.
Qed.

Lemma run_no_order (l : list Order) :
  Spending.matchStage cid l = [] -> Spending.run cid l = Some [].
Proof. intros E. unfold Spending.run. rewrite E. reflexivity. Qed.

(** With at least one order the pipeline yields one document; its
    [$divide] has the positive order count for divisor. *)
Lemma run_some_order (l : list Order) :
  Spending.matchStage cid l <> [] ->
  exists o0 rest,
    Spending.sortStage (Spending.matchStage cid l) = o0 :: rest
    /\ Spending.run cid l =
       Some [ {| cs_customerId := cid;
                 totalSpent := Num.sumQ (map totalAmount (o0 :: rest));
                 averageOrderValue :=
                   (Num.sumQ (map totalAmount (o0 :: rest))
                    / inject_Z (Z.of_nat (List.length (o0 :: rest))))%Q;
                 lastOrderDate := Some (orderDate o0) |} ].
Proof.
  intros Hne.
  destruct (Spending.sortStage (Spending.matchStage cid l)) as [|o0 rest] eqn:E.
  { apply sort_desc_nil_iff in E. contradiction. }
  exists o0, rest. split; [reflexivity|].
  unfold Spending.run, Spending.groupStage. rewrite E.
  rewrite (group_by_const String.eqb customerId String.eqb_eq cid).
  - cbn [map hd_error option_map Stage.traverse].
    unfold Spending.projectStage.
    cbn [Spending.g_orderCount Spending.g_totalSpent Spending.g_id
         Spending.g_lastOrderDate].
    assert (P : 0 < Z.of_nat (List.length (o0 :: rest))) by (simpl; lia).
    destruct (Z.of_nat (List.length (o0 :: rest)) =? 0) eqn:Z0;
      [apply Z.eqb_eq in Z0; lia|].
    rewrite mongoDivide_nonzero; [reflexivity|].
    unfold Qeq. simpl Qnum. simpl Qden. lia.
  - intros d Hd. rewrite <- E in Hd.
    apply (Permutation_in _ (sortStage_Permutation _)) in Hd.
    apply matchStage_customer in Hd. tauto.
  - discriminate.
Qed.

(** No input makes the pipeline fail: the guarded [$divide] never sees a
    zero divisor. *)
Lemma run_total (l : list Order) : exists r, Spending.run cid l = Some r.
Proof.
  destruct (Spending.matchStage cid l) as [|o t] eqn:E.
  - eexists. apply run_no_order. exact E.
  - destruct (run_some_order l) as (o0 & rest & _ & R); [rewrite E; discriminate|].
    eexists. exact R.
Qed.

End SpendingFacts.

(** ** getCustomerSpending *)

Section CustomerSpendingFacts.

Variable s : Store.
Variable cid : string.
Hypothesis cid_given : cid <> EmptyString.

Local Abbreviation agg := (Order_aggregate (spendingPipeline cid)).

Lemma falsy_id_given : falsy_id (Some cid) = false.
Proof. simpl. apply String.eqb_neq. exact cid_given. Qed.

(** With an order on file, one store call decides the answer. *)
Lemma spending_of_orders :
  failing s agg = false -> orders_of s cid <> [] ->
  exists last,
    getCustomerSpending s (Some cid) =
      ([StoreAccess agg], Return (summary_of cid (orders_of s cid) last))
    /\ latest_date (orders_of s cid) last.
Proof.
  intros Hf Hne.
  destruct (run_some_order cid (Orders s) Hne) as (o0 & rest & Es & Er).
  change (Spending.matchStage cid (Orders s)) with (orders_of s cid) in Es.
  pose proof (sortStage_Permutation (orders_of s cid)) as P. rewrite Es in P.
  destruct (sortStage_head_latest _ _ _ Es) as [Hin Hmax].
  exists (orderDate o0). split; [|split; [exists o0; auto | exact Hmax]].
  unfold getCustomerSpending. rewrite falsy_id_given, aggregate_outcome.
  rewrite Hf, Er. cbn -[Num.toFixed2 Num.sumQ List.length map].
  unfold summary_of. do 2 f_equal. f_equal.
  - apply toFixed2_Qeq, sumQ_Permutation, Permutation_map, P.
  - apply toFixed2_Qeq.
    rewrite (Permutation_length P).
    rewrite (sumQ_Permutation _ _ (Permutation_map totalAmount P)).
    reflexivity.
Qed.

(** Without an order the customer collection is asked. *)
Lemma spending_without_orders :
  failing s agg = false -> orders_of s cid = [] ->
  getCustomerSpending s (Some cid) =
  Async.try_catch
    (([StoreAccess agg], Return tt) ;;;
     customerExists <- findById Customer_findById (Customers s) customer_id s cid ;;
     match customerExists with
     | None => Async.throw (graphQLError "Customer not found" NOT_FOUND)
     | Some _ => Async.ret (zero_summary cid)
     end)
    (fun error =>
       Async.emit (ConsoleError "Error in getCustomerSpending:") ;;;
       if is_CastError error then
         Async.throw (graphQLError "Invalid Customer ID format" BAD_USER_INPUT)
       else
         Async.throw (graphQLError "Could not fetch customer spending data."
                                   INTERNAL_SERVER_ERROR)).
Proof.
  intros Hf He.
  unfold getCustomerSpending. rewrite falsy_id_given, aggregate_outcome.
  rewrite Hf, (run_no_order cid (Orders s) He).
  rewrite findById_outcome. cbn.
  destruct (idFormat s cid); cbn; [|reflexivity].
  destruct (failing s (Customer_findById cid)); cbn; [reflexivity|].
  destruct (find _ (Customers s)); reflexivity.
Qed.

(** Every value the resolver returns is one of the two summaries. *)
Lemma spending_returns (r : CustomerSpending) :
  Async.outcome (getCustomerSpending s (Some cid)) = Return r ->
  (orders_of s cid <> []
   /\ exists last, r = summary_of cid (orders_of s cid) last)
  \/ (orders_of s cid = [] /\ r = zero_summary cid).
Proof.
  intros H.
  destruct (failing s agg) eqn:Hf.
  { exfalso. revert H. unfold getCustomerSpending.
    rewrite falsy_id_given, aggregate_outcome, Hf.
    cbn. discriminate. }
  destruct (orders_of s cid) as [|o t] eqn:E.
  - right. split; [reflexivity|].
    rewrite (spending_without_orders Hf E), findById_outcome in H. revert H.
    destruct (idFormat s cid); cbn; [|discriminate].
    destruct (failing s (Customer_findById cid)); cbn; [discriminate|].
    destruct (find _ (Customers s)); cbn; [|discriminate].
    intros H. inversion H. reflexivity.
  - left. split; [discriminate|].
    destruct spending_of_orders as (last & Eq & _); [exact Hf | rewrite E; discriminate |].
    exists last. rewrite Eq in H. cbn in H. inversion H. rewrite E. reflexivity.
Qed.

End CustomerSpendingFacts.

Section CustomerSpendingClaims.

Local Open Scope string_scope.

(** A customer id that names neither an order nor a customer: the NOT_FOUND
    error is thrown, caught by the resolver's own handler, logged, and
    replaced by INTERNAL_SERVER_ERROR. *)
Lemma spending_unknown_customer (s : Store) (cid : string) :
  cid <> "" -> healthy s -> idFormat s cid = true ->
  orders_of s cid = [] ->
  (forall c, In c (Customers s) -> customer_id c <> cid) ->
  getCustomerSpending s (Some cid) =
  ([StoreAccess (Order_aggregate (spendingPipeline cid));
    StoreAccess (Customer_findById cid);
    ConsoleError "Error in getCustomerSpending:"],
   Throw (graphQLError "Could not fetch customer spending data."
                       INTERNAL_SERVER_ERROR)).
Proof.
  intros Hc Hh Hf Ho Habs.
  rewrite (spending_without_orders s cid Hc (Hh _) Ho), findById_outcome.
  rewrite Hf, (Hh _), (find_absent customer_id cid _ Habs). reflexivity.
Qed.

(** getCustomerSpending never rejects with NOT_FOUND. *)
Lemma spending_never_NOT_FOUND (s : Store) (v : option string) :
  ~ rejects (getCustomerSpending s v) NOT_FOUND.
Proof.
  unfold rejects. intros (g & Ho & Hg). revert Ho.
  unfold getCustomerSpending.
  destruct (falsy_id v); [cbn; intros Ho; inversion Ho; subst; discriminate|].
  rewrite aggregate_outcome.
  destruct (failing s _); [cbn; intros Ho; inversion Ho; subst; discriminate|].
  destruct (Spending.run _ (Orders s)) as [[|r0 t]|];
    try (cbn; intros Ho; inversion Ho; subst; discriminate).
  rewrite findById_outcome.
  destruct (idFormat s _); cbn;
    [|intros Ho; inversion Ho; subst; discriminate].
  destruct (failing s (Customer_findById _)); cbn;
    [intros Ho; inversion Ho; subst; discriminate|].
  destruct (find _ (Customers s)); cbn;
    intros Ho; inversion Ho; subst; discriminate.
Qed.

(** C1. On the sample store the id "c4" names no order and no customer;
    the store answers both calls, and the resolver rejects with
    INTERNAL_SERVER_ERROR, not with NOT_FOUND. *)
Theorem getCustomerSpending_unknown_customer_internal :
  orders_of Sample.store "c4" = []
  /\ (forall c, In c (Customers Sample.store) -> customer_id c <> "c4")
  /\ getCustomerSpending Sample.store (Some "c4") =
     ([StoreAccess (Order_aggregate (spendingPipeline "c4"));
       StoreAccess (Customer_findById "c4");
       ConsoleError "Error in getCustomerSpending:"],
      Throw (graphQLError "Could not fetch customer spending data."
                          INTERNAL_SERVER_ERROR))
  /\ rejects (getCustomerSpending Sample.store (Some "c4")) INTERNAL_SERVER_ERROR
  /\ ~ rejects (getCustomerSpending Sample.store (Some "c4")) NOT_FOUND.
Proof.
  split; [reflexivity|]. split.
  { intros c [<-|[<-|[]]]; discriminate. }
  split; [reflexivity|]. split.
  - eexists. split; reflexivity.
  - apply spending_never_NOT_FOUND.
Qed.

(** C6. A non-empty id that names a customer record but no order: the
    resolver returns the zero-valued summary. *)
Theorem getCustomerSpending_zero_summary (s : Store) (cid : string) :
  cid <> "" -> healthy s -> idFormat s cid = true ->
  (forall o, In o (Orders s) -> customerId o <> cid) ->
  (exists c, In c (Customers s) /\ customer_id c = cid) ->
  Async.outcome (getCustomerSpending s (Some cid)) =
  Return {| cs_customerId := cid;
            totalSpent := 0;
            averageOrderValue := 0;
            lastOrderDate := None |}.
Proof.
  intros Hc Hh Hf Hno Hex.
  assert (Ho : orders_of s cid = []).
  { apply filter_none. intros o Hin. apply String.eqb_neq. exact (Hno o Hin). }
  rewrite (spending_without_orders s cid Hc (Hh _) Ho), findById_outcome.
  rewrite Hf, (Hh _).
  destruct (find_present customer_id cid _ Hex) as (c & ->). reflexivity.
Qed.

Lemma getCustomerSpending_zero_summary_witness :
  Async.outcome (getCustomerSpending Sample.store (Some "c3")) =
  Return {| cs_customerId := "c3";
            totalSpent := 0;
            averageOrderValue := 0;
            lastOrderDate := None |}.
Proof.
  apply (getCustomerSpending_zero_summary Sample.store "c3").
  - discriminate.
  - intros c. reflexivity.
  - reflexivity.
  - intros o [<-|[<-|[<-|[]]]]; discriminate.
  - eexists. split; [right; left; reflexivity | reflexivity].
Defined.

End CustomerSpendingClaims.


(** ** Order-preserving stages *)

Section SortByInteger.

Context {X : Type}.
Variable f : X -> Z.

(** [$sort] by an integer field, descending, leaves every document ahead of
    the documents it is not smaller than. *)
Lemma sort_desc_StronglySorted (l : list X) :
  StronglySorted (fun a b => f a >= f b)
                 (Stage.sort_desc (fun a b => f a >=? f b) l).
Proof.
  assert (S : Sorted (fun a b => (f a >=? f b) = true)
                     (Stage.sort_desc (fun a b => f a >=? f b) l)).
  { apply sort_desc_Sorted. intros x y H.
    rewrite Z.geb_leb in *. apply Z.leb_gt in H. apply Z.leb_le. lia. }
  apply Sorted_StronglySorted in S.
  - induction S as [|a t St IH Hall]; constructor; [exact IH|].
    eapply Forall_impl; [|exact Hall].
    intros b Hb. cbv beta in Hb. rewrite Z.geb_leb in Hb. apply Z.leb_le in Hb. lia.
  - intros x y z H1 H2. rewrite Z.geb_leb in *.
    apply Z.leb_le in H1, H2. apply Z.leb_le. lia.
Qed.

End SortByInteger.

Section OrderedStages.

Context {X : Type}.

Lemma firstn_In (n : nat) (l : list X) (x : X) : In x (firstn n l) -> In x l.
Proof.
  revert n. induction l as [|a t IH]; intros [|n]; simpl; try tauto.
  intros [H|H]; [left; exact H | right; exact (IH n H)].
Qed.


Lemma StronglySorted_impl (R R' : X -> X -> Prop) (l : list X) :
  (forall a b, R a b -> R' a b) -> StronglySorted R l -> StronglySorted R' l.
Proof.
  intros H. induction 1 as [|a t St IH Hall]; constructor; [exact IH|].
  eapply Forall_impl; [|exact Hall]. intros b. apply H.
Qed.


End OrderedStages.

Section JoinFacts.

Context {X : Type}.
Variable Prods : list Product.
Variable fk : X -> string.

(** A joined pair is a document of the input with a product of that id. *)
Lemma lookup_unwind_In (l : list X) (x : X) (p : Product) :
  In (x, p) (Stage.lookup_unwind Prods fk l)
  <-> In x l /\ In p Prods /\ product_id p = fk x.
Proof.
  unfold Stage.lookup_unwind. rewrite in_flat_map. split.
  - intros (y & Hy & Hin). apply in_map_iff in Hin.
    destruct Hin as (q & E & Hq). inversion E; subst.
    apply filter_In in Hq. destruct Hq as [Hq Hid].
    apply String.eqb_eq in Hid. auto.
  - intros (Hx & Hp & Hid). exists x. split; [exact Hx|].
    apply in_map. apply filter_In. split; [exact Hp | apply String.eqb_eq; exact Hid].
Qed.

Lemma filter_unique_id (k : string) :
  NoDup (map product_id Prods) ->
  (List.length (filter (fun p => (product_id p =? k)%string) Prods) <= 1)%nat.
Proof.
  induction Prods as [|p ps IH]; intros ND; simpl; [lia|].
  inversion ND as [|? ? Hnin ND']; subst.
  destruct (String.eqb_spec (product_id p) k) as [E|E].
  - rewrite filter_none; [simpl; lia|].
    intros q Hq. apply String.eqb_neq. intros Eq. apply Hnin.
    rewrite E, <- Eq. apply in_map. exact Hq.
  - apply IH. exact ND'.
Qed.


(** Documents whose key has no product leave the join as if they had not
    entered it. *)
Lemma lookup_unwind_filter (keep : X -> bool) (l : list X) :
  (forall x, In x l -> keep x = false ->
             forall p, In p Prods -> product_id p <> fk x) ->
  Stage.lookup_unwind Prods fk (filter keep l) = Stage.lookup_unwind Prods fk l.
Proof.
  unfold Stage.lookup_unwind.
  induction l as [|x l IH]; intros H; [reflexivity|].
  simpl. destruct (keep x) eqn:K; simpl.
  - f_equal. apply IH. intros y Hy. apply H. right. exact Hy.
  - rewrite (filter_none (fun p => (product_id p =? fk x)%string) Prods).
    + simpl. apply IH. intros y Hy. apply H. right. exact Hy.
    + intros p Hp. apply String.eqb_neq. apply (H x (or_introl eq_refl) K p Hp).
Qed.


End JoinFacts.


(** ** The top-selling pipeline *)

Section TopSellingFacts.

Variable Prods : list Product.

(** The total of a group is the sum of the quantities of all the line items
    that name its product. *)
Lemma groupStage_totalSold (items : list OrderItem) (g : TopSelling.Group) :
  In g (TopSelling.groupStage items) ->
  TopSelling.g_totalSold g
  = Num.sumZ (map quantity
                  (filter (fun it => (productId it =? TopSelling.g_id g)%string) items)).
Proof.
  unfold TopSelling.groupStage. rewrite in_map_iff.
  intros ([k docs] & <- & Hin).
  apply (group_by_In String.eqb productId String.eqb_eq) in Hin.
  destruct Hin as [-> _]. reflexivity.
Qed.


Lemma run_entry (n : Z) (l : list Order) (e : TopProduct) :
  In e (map TopSelling.projectStage
            (Stage.lookup_unwind Prods TopSelling.g_id
               (Stage.limit n
                  (TopSelling.sortStage
                     (TopSelling.groupStage (Stage.unwind_products l)))))) ->
  exists g p,
    e = TopSelling.projectStage (g, p)
    /\ In g (TopSelling.groupStage (Stage.unwind_products l))
    /\ In p Prods /\ product_id p = TopSelling.g_id g.
Proof.
  rewrite in_map_iff. intros ([g p] & <- & Hin).
  apply lookup_unwind_In in Hin. destruct Hin as (Hg & Hp & Hid).
  exists g, p. split; [reflexivity|]. split; [|split; assumption].
  unfold Stage.limit in Hg. apply firstn_In in Hg.
  apply (Permutation_in _ (sort_desc_Permutation _ _)) in Hg. exact Hg.
Qed.

End TopSellingFacts.




(** ** The analytics pipelines *)

Section AnalyticsFacts.

Variables start finish : Z.

(** The [$match] stage keeps the completed orders dated in [start, finish). *)
Lemma matches_spec (o : Order) :
  Analytics.matches start finish o = true
  <-> status o = completed /\ start <= orderDate o < finish.
Proof.
  unfold Analytics.matches.
  rewrite !andb_true_iff, Z.geb_leb, Z.leb_le, Z.ltb_lt.
  destruct (status o); simpl; split; intros [H1 H2]; try discriminate;
    (split; [reflexivity | lia]).
Qed.

Lemma matchStage_In (l : list Order) (o : Order) :
  In o (Analytics.matchStage start finish l)
  <-> In o l /\ status o = completed /\ start <= orderDate o < finish.
Proof.
  unfold Analytics.matchStage. rewrite filter_In, matches_spec. reflexivity.
Qed.

Lemma matchStage_idempotent (l : list Order) :
  Analytics.matchStage start finish (Analytics.matchStage start finish l)
  = Analytics.matchStage start finish l.
Proof.
  unfold Analytics.matchStage.
  induction l as [|o l IH]; [reflexivity|].
  simpl. destruct (Analytics.matches start finish o) eqn:E; [|exact IH].
  simpl. rewrite E, IH. reflexivity.
Qed.

(** [$group] with a null key: one group of everything, or nothing at all. *)
Lemma overallGroup_spec (l : list Order) :
  Analytics.overallGroup l =
  match l with
  | [] => []
  | _ :: _ =>
      [ {| Analytics.o_totalRevenue := Num.sumQ (map totalAmount l);
           Analytics.o_completedOrders := Z.of_nat (List.length l) |} ]
  end.
Proof.
  destruct l as [|o t]; [reflexivity|].
  unfold Analytics.overallGroup.
  rewrite (group_by_const (fun _ _ : unit => true) (fun _ : Order => tt)) with (k := tt).
  - reflexivity.
  - intros [] []. split; reflexivity.
  - reflexivity.
  - discriminate.
Qed.

(** Taking line items out of the orders does not change which orders match,
    nor what they add up to. *)
Lemma matchStage_drop_items (pid : string) (l : list Order) :
  Analytics.matchStage start finish (map (drop_items pid) l)
  = map (drop_items pid) (Analytics.matchStage start finish l).
Proof.
  unfold Analytics.matchStage. rewrite filter_map_swap. reflexivity.
Qed.

Lemma overall_drop_items (pid : string) (l : list Order) :
  Analytics.overall start finish (map (drop_items pid) l)
  = Analytics.overall start finish l.
Proof.
  unfold Analytics.overall. rewrite matchStage_drop_items, !overallGroup_spec.
  destruct (Analytics.matchStage start finish l) as [|o t]; [reflexivity|].
  cbn [map]. rewrite <- !map_cons, length_map, map_map. reflexivity.
Qed.

Lemma unwind_drop_items (pid : string) (l : list Order) :
  Stage.unwind_products (map (drop_items pid) l)
  = filter (fun it => negb (productId it =? pid)%string) (Stage.unwind_products l).
Proof.
  unfold Stage.unwind_products.
  induction l as [|o l IH]; [reflexivity|].
  simpl. rewrite IH, filter_app. reflexivity.
Qed.

(** Line items whose product has no record do not reach the grouping. *)
Lemma joined_items_drop (Prods : list Product) (pid : string) (l : list Order) :
  (forall p, In p Prods -> product_id p <> pid) ->
  joined_items Prods (map (drop_items pid) l) = joined_items Prods l.
Proof.
  intros Hun. unfold joined_items.
  rewrite unwind_drop_items.
  change (fun it => negb (productId it =? pid)%string)
    with (fun it => (fun i => negb (Analytics.i_productId i =? pid)%string)
                      (Analytics.itemProject it)).
  rewrite <- filter_map_swap.
  apply lookup_unwind_filter.
  intros x _ K p Hp E. apply negb_false_iff, String.eqb_eq in K.
  apply (Hun p Hp). congruence.
Qed.

Lemma breakdown_drop_items (Prods : list Product) (pid : string) (l : list Order) :
  (forall p, In p Prods -> product_id p <> pid) ->
  Analytics.breakdown Prods start finish (map (drop_items pid) l)
  = Analytics.breakdown Prods start finish l.
Proof.
  intros Hun. unfold Analytics.breakdown.
  rewrite matchStage_drop_items.
  change (Stage.lookup_unwind Prods Analytics.i_productId
            (map Analytics.itemProject
               (Stage.unwind_products
                  (map (drop_items pid) (Analytics.matchStage start finish l)))))
    with (joined_items Prods (map (drop_items pid) (Analytics.matchStage start finish l))).
  rewrite (joined_items_drop Prods pid _ Hun). reflexivity.
Qed.

End AnalyticsFacts.

(** ** getSalesAnalytics *)

Section SalesAnalyticsFacts.

Variable newDate : string -> option Z.
Variable s : Store.
Variables startDate endDate : string.
Variables start finish : Z.
Hypothesis start_parsed : newDate startDate = Some start.
Hypothesis finish_parsed : newDate endDate = Some finish.
Hypothesis ordered : start < finish.

Local Abbreviation overallCall :=
  (Order_aggregate (overallAnalyticsPipeline start finish)).
Local Abbreviation breakdownCall :=
  (Order_aggregate (categoryBreakdownPipeline start finish)).

(** With valid dates and a store that answers, the two aggregations are
    issued and the analytics of the matching orders are returned. *)
Lemma analytics_returns :
  failing s overallCall = false -> failing s breakdownCall = false ->
  getSalesAnalytics newDate s startDate endDate =
  ([StoreAccess overallCall; StoreAccess breakdownCall],
   Return (analytics_of (Products s) (Analytics.matchStage start finish (Orders s)))).
Proof.
  intros H1 H2. unfold getSalesAnalytics.
  rewrite start_parsed, finish_parsed.
  replace (start >=? finish) with false
    by (symmetry; rewrite Z.geb_leb; apply Z.leb_gt; exact ordered).
  rewrite !aggregate_outcome, H1, H2.
  unfold Analytics.overall, Analytics.breakdown. rewrite overallGroup_spec.
  unfold analytics_of, breakdown_of, joined_items.
  destruct (Analytics.matchStage start finish (Orders s)); reflexivity.
Qed.

End SalesAnalyticsFacts.

(** On the sample store and the window from 2024-01-05 to 2024-01-10, order A
    (completed, dated the start) is the one order counted: order B is dated
    the end and order C is pending. *)
Example getSalesAnalytics_sample :
  Async.outcome (getSalesAnalytics Sample.newDate Sample.store
                                   "2024-01-05" "2024-01-10")
  = Return {| totalRevenue := 10000 # 100;
              completedOrders := 1;
              categoryBreakdown :=
                [ {| cr_category := "kitchen"; revenue := 6000 # 100 |};
                  {| cr_category := "lighting"; revenue := 4000 # 100 |} ] |}.
Proof. vm_compute. reflexivity. Qed.

(** ** Line items without a product record *)

Section UnmatchedProducts.

Variable s : Store.
Variable pid : string.
Hypothesis no_record : unmatched s pid.

Lemma analytics_of_drop_items (l : list Order) :
  analytics_of (Products s) (map (drop_items pid) l) = analytics_of (Products s) l.
Proof.
  unfold analytics_of, breakdown_of.
  rewrite (joined_items_drop (Products s) pid l no_record), length_map, map_map.
  destruct l; reflexivity.
Qed.

(** An entry of the breakdown is the category of a product on record that
    a line item of the counted orders names. *)
Lemma breakdown_of_category (l : list Order) (c : CategoryRevenue) :
  In c (breakdown_of (Products s) l) ->
  exists it p,
    In it (Stage.unwind_products l) /\ In p (Products s)
    /\ product_id p = productId it /\ category p = cr_category c.
Proof.
  unfold breakdown_of. rewrite in_map_iff. intros (c1 & <- & H1).
  apply (Permutation_in _ (sort_desc_Permutation _ _)) in H1.
  apply in_map_iff in H1. destruct H1 as (c2 & <- & H2).
  unfold Analytics.categoryGroup in H2. apply in_map_iff in H2.
  destruct H2 as ([k docs] & <- & H3).
  apply (group_by_In String.eqb _ String.eqb_eq) in H3. destruct H3 as [_ H3].
  apply in_map_iff in H3. destruct H3 as ([i p] & <- & H4).
  unfold joined_items in H4. apply lookup_unwind_In in H4.
  destruct H4 as (Hi & Hp & Hid).
  apply in_map_iff in Hi. destruct Hi as (it & <- & Hit).
  exists it, p. cbn. auto.
Qed.

End UnmatchedProducts.

(** C9. When no product record carries [pid], the store answers, the limit
    is positive and the dates are valid: getTopSellingProducts returns a
    list in which no entry has productId [pid]; getSalesAnalytics returns a
    result, the same one it returns once every line item naming [pid] is
    deleted from the orders, and each entry of its categoryBreakdown is the
    category of a product on record, other than [pid]. *)
Theorem unmatched_product_is_dropped (newDate : string -> option Z) (s : Store)
    (pid : string) (limit : Z) (startDate endDate : string) (start finish : Z) :
  unmatched s pid ->
  healthy s ->
  0 < limit ->
  newDate startDate = Some start ->
  newDate endDate = Some finish ->
  start < finish ->
  (exists tops,
      Async.outcome (getTopSellingProducts s (Some limit)) = Return tops
      /\ forall e, In e tops -> tp_productId e <> pid)
  /\ (exists r,
        Async.outcome (getSalesAnalytics newDate s startDate endDate) = Return r
        /\ Async.outcome (getSalesAnalytics newDate (without_items pid s)
                                            startDate endDate) = Return r
        /\ forall c, In c (categoryBreakdown r) ->
             exists p, In p (Products s) /\ product_id p <> pid
                       /\ category p = cr_category c).
Proof.
  intros Hun Hh Hpos Ha Hb Hlt. split.
  - eexists. split.
    + unfold getTopSellingProducts.
      replace (bad_limit (Some limit)) with false.
      * rewrite aggregate_outcome, (Hh _). reflexivity.
      * symmetry. simpl. apply orb_false_iff.
        split; [apply Z.eqb_neq | apply Z.leb_gt]; lia.
    + intros e He. apply run_entry in He.
      destruct He as (g & p & -> & _ & Hp & Hid). cbn.
      rewrite <- Hid. apply Hun. exact Hp.
  - exists (analytics_of (Products s) (Analytics.matchStage start finish (Orders s))).
    split; [|split].
    + rewrite (analytics_returns newDate s _ _ _ _ Ha Hb Hlt (Hh _) (Hh _)).
      reflexivity.
    + rewrite (analytics_returns newDate (without_items pid s) _ _ _ _ Ha Hb Hlt
                 (Hh _) (Hh _)).
      cbn [Async.outcome snd without_items with_orders Orders Products].
      rewrite matchStage_drop_items, (analytics_of_drop_items s pid Hun).
      reflexivity.
    + intros c Hc. cbn [analytics_of categoryBreakdown] in Hc.
      apply breakdown_of_category in Hc.
      destruct Hc as (it & p & _ & Hp & _ & Hcat).
      exists p. split; [exact Hp|]. split; [apply Hun; exact Hp | exact Hcat].
Qed.

Lemma unmatched_product_is_dropped_witness :
  (exists o it, In o (Orders Sample.orphaned) /\ In it (products o)
                /\ productId it = "p9"%string /\ status o = completed)
  /\ (exists tops,
      Async.outcome (getTopSellingProducts Sample.orphaned (Some 1)) = Return tops
      /\ forall e, In e tops -> tp_productId e <> "p9"%string)
  /\ (exists r,
        Async.outcome (getSalesAnalytics Sample.newDate Sample.orphaned
                                         "2024-01-05" "2024-02-01") = Return r
        /\ Async.outcome (getSalesAnalytics Sample.newDate
                                            (without_items "p9" Sample.orphaned)
                                            "2024-01-05" "2024-02-01") = Return r
        /\ forall c, In c (categoryBreakdown r) ->
             exists p, In p (Products Sample.orphaned)
                       /\ product_id p <> "p9"%string
                       /\ category p = cr_category c).
Proof.
  split.
  - eexists. eexists. split; [right; left; reflexivity|].
    split; [left; reflexivity|]. split; reflexivity.
  - apply (unmatched_product_is_dropped Sample.newDate Sample.orphaned "p9" 1
             "2024-01-05" "2024-02-01" 1704412800000 1706745600000).
    + intros p [<-|[<-|[]]]; discriminate.
    + intros c. reflexivity.
    + lia.
    + reflexivity.
    + reflexivity.
    + lia.
Defined.

(** On that store the group of "p9" holds the first place of the ranking:
    with a limit of 1 the answer is empty, and the analytics count the 20.00
    of order K while its line item of "p9" appears in no category. *)
Example unmatched_product_sample :
  Async.outcome (getTopSellingProducts Sample.orphaned (Some 1)) = Return []
  /\ Async.outcome (getSalesAnalytics Sample.newDate Sample.orphaned
                                      "2024-01-05" "2024-02-01")
     = Return {| totalRevenue := 12000 # 100;
                 completedOrders := 2;
                 categoryBreakdown :=
                   [ {| cr_category := "kitchen"; revenue := 6000 # 100 |};
                     {| cr_category := "lighting"; revenue := 5000 # 100 |} ] |}.
Proof. split; vm_compute; reflexivity. Qed.

(** * Further properties of the resolvers *)

(** ** What a rejection looks like *)

Ltac inspect_rejection :=
  cbn; intros Hthrown; inversion Hthrown; subst;
  eexists; split; [reflexivity | first [left; reflexivity | right; reflexivity]].

(** Whatever the arguments and whatever the store does, a rejection of
    getCustomerSpending, getTopSellingProducts or getSalesAnalytics is a
    GraphQLError that carries BAD_USER_INPUT or INTERNAL_SERVER_ERROR: an
    error of the store never reaches the caller as it was thrown. *)
Theorem analytics_resolvers_rejection_codes (newDate : string -> option Z)
    (s : Store) :
  (forall v e, Async.outcome (getCustomerSpending s v) = Throw e -> coded e)
  /\ (forall limit e,
        Async.outcome (getTopSellingProducts s limit) = Throw e -> coded e)
  /\ (forall startDate endDate e,
        Async.outcome (getSalesAnalytics newDate s startDate endDate) = Throw e ->
        coded e).
Proof.
  unfold coded. split; [|split].
  - intros v e. unfold getCustomerSpending.
    destruct (falsy_id v); [inspect_rejection|].
    rewrite aggregate_outcome.
    destruct (failing s _); [inspect_rejection|].
    destruct (Spending.run _ (Orders s)) as [[|r0 t]|];
      [| cbn; discriminate | inspect_rejection].
    rewrite findById_outcome.
    destruct (idFormat s _); [|inspect_rejection].
    destruct (failing s (Customer_findById _)); [inspect_rejection|].
    destruct (find _ (Customers s)); [cbn; discriminate | inspect_rejection].
  - intros limit e. unfold getTopSellingProducts.
    destruct (bad_limit limit); [inspect_rejection|].
    rewrite aggregate_outcome.
    destruct (failing s _); [inspect_rejection | cbn; discriminate].
  - intros startDate endDate e. unfold getSalesAnalytics.
    destruct (newDate startDate) as [a|]; [|inspect_rejection].
    destruct (newDate endDate) as [b|]; [|inspect_rejection].
    destruct (a >=? b); [inspect_rejection|].
    rewrite !aggregate_outcome.
    destruct (failing s (Order_aggregate (overallAnalyticsPipeline a b)));
      destruct (failing s (Order_aggregate (categoryBreakdownPipeline a b)));
      first [inspect_rejection | cbn; discriminate].
Qed.

(** ** getCustomerSpending: the other ways out *)

Section SpendingEdges.

Local Open Scope string_scope.

(** An absent or empty customerId is refused as BAD_USER_INPUT before the
    store is called or anything is logged. *)
Theorem getCustomerSpending_rejects_missing_id (s : Store) (v : option string) :
  v = None \/ v = Some "" ->
  getCustomerSpending s v =
  ([], Throw (graphQLError "Customer ID is required" BAD_USER_INPUT)).
Proof. intros [->| ->]; reflexivity. Qed.

Lemma getCustomerSpending_rejects_missing_id_witness :
  getCustomerSpending Sample.store (Some "") =
  ([], Throw (graphQLError "Customer ID is required" BAD_USER_INPUT)).
Proof.
  apply (getCustomerSpending_rejects_missing_id Sample.store (Some "")).
  right. reflexivity.
Defined.

(** When the aggregation fails, or no order matches and the customer lookup
    fails for a reason other than the format of the id, the resolver rejects
    with INTERNAL_SERVER_ERROR. *)
Theorem getCustomerSpending_store_failure (s : Store) (cid : string) :
  cid <> "" ->
  failing s (Order_aggregate (spendingPipeline cid)) = true
  \/ (failing s (Order_aggregate (spendingPipeline cid)) = false
      /\ orders_of s cid = [] /\ idFormat s cid = true
      /\ failing s (Customer_findById cid) = true) ->
  Async.outcome (getCustomerSpending s (Some cid)) =
  Throw (graphQLError "Could not fetch customer spending data." INTERNAL_SERVER_ERROR).
Proof.
  intros Hc [Hf|(Hf & Ho & Hid & Hf')].
  - unfold getCustomerSpending.
    rewrite (falsy_id_given cid Hc), aggregate_outcome, Hf. reflexivity.
  - rewrite (spending_without_orders s cid Hc Hf Ho), findById_outcome, Hid, Hf'.
    reflexivity.
Qed.

Lemma getCustomerSpending_store_failure_witness :
  Async.outcome (getCustomerSpending Sample.down (Some "c1")) =
  Throw (graphQLError "Could not fetch customer spending data." INTERNAL_SERVER_ERROR).
Proof.
  apply (getCustomerSpending_store_failure Sample.down "c1");
    [discriminate | left; reflexivity].
Defined.

End SpendingEdges.

(** ** getCustomerSpending: what the summary does not depend on *)

Section SpendingInvariance.

Lemma filter_Permutation {X} (f : X -> bool) (l l' : list X) :
  Permutation l l' -> Permutation (filter f l) (filter f l').
Proof.
  induction 1 as [|x l l' P IH|x y l|l l' l'' P1 IH1 P2 IH2]; simpl.
  - constructor.
  - destruct (f x); [constructor|]; exact IH.
  - destruct (f x), (f y); try reflexivity. apply perm_swap.
  - etransitivity; eassumption.
Qed.

Lemma summary_of_Permutation (cid : string) (l l' : list Order) (last : Z) :
  Permutation l l' -> summary_of cid l last = summary_of cid l' last.
Proof.
  intros P. unfold summary_of.
  pose proof (sumQ_Permutation _ _ (Permutation_map totalAmount P)) as E.
  f_equal.
  - apply toFixed2_Qeq. exact E.
  - apply toFixed2_Qeq. rewrite (Permutation_length P), E. reflexivity.
Qed.

Lemma latest_date_unique (l l' : list Order) (a b : Z) :
  (forall d, In d (map orderDate l) <-> In d (map orderDate l')) ->
  latest_date l a -> latest_date l' b -> a = b.
Proof.
  intros Hsame [(o & Ho & Ea) Ma] [(o' & Ho' & Eb) Mb].
  assert (Ia : In a (map orderDate l')).
  { apply Hsame. rewrite <- Ea. apply in_map. exact Ho. }
  assert (Ib : In b (map orderDate l)).
  { apply Hsame. rewrite <- Eb. apply in_map. exact Ho'. }
  apply in_map_iff in Ia. destruct Ia as (x & Ex & Hx).
  apply in_map_iff in Ib. destruct Ib as (y & Ey & Hy).
  specialize (Mb x Hx). specialize (Ma y Hy). lia.
Qed.

(** Two Order collections on which the orders of a customer have the same
    summaries and the same dates give the same outcome. *)
Lemma spending_outcome_transfer (s : Store) (l' : list Order) (cid : string) :
  cid <> EmptyString ->
  (orders_of s cid = [] <-> orders_of (with_orders s l') cid = []) ->
  (forall d, summary_of cid (orders_of (with_orders s l') cid) d
             = summary_of cid (orders_of s cid) d) ->
  (forall d, In d (map orderDate (orders_of s cid))
             <-> In d (map orderDate (orders_of (with_orders s l') cid))) ->
  Async.outcome (getCustomerSpending (with_orders s l') (Some cid))
  = Async.outcome (getCustomerSpending s (Some cid)).
Proof.
  intros Hc Hempty Hsum Hdates.
  destruct (failing s (Order_aggregate (spendingPipeline cid))) eqn:Hf.
  { unfold getCustomerSpending.
    rewrite (falsy_id_given cid Hc), !aggregate_outcome.
    cbn [failing with_orders]. rewrite Hf. reflexivity. }
  assert (C : orders_of s cid = [] \/ orders_of s cid <> []).
  { destruct (orders_of s cid); [left; reflexivity | right; discriminate]. }
  destruct C as [E|N].
  - assert (E' : orders_of (with_orders s l') cid = []) by (apply Hempty; exact E).
    rewrite (spending_without_orders (with_orders s l') cid Hc Hf E').
    rewrite (spending_without_orders s cid Hc Hf E). reflexivity.
  - assert (N' : orders_of (with_orders s l') cid <> []).
    { intros X. apply Hempty in X. contradiction. }
    destruct (spending_of_orders s cid Hc Hf N) as (a & Ea & La).
    destruct (spending_of_orders (with_orders s l') cid Hc Hf N') as (b & Eb & Lb).
    rewrite Ea, Eb. cbn [Async.outcome snd]. rewrite Hsum.
    rewrite (latest_date_unique _ _ a b Hdates La Lb). reflexivity.
Qed.

(** The outcome of getCustomerSpending does not depend on the order in which
    the orders lie in the collection: the sum is that of the same totals and,
    when several orders share the latest date, only that date is reported. *)
Theorem getCustomerSpending_order_independent (s : Store) (l' : list Order)
    (v : option string) :
  Permutation (Orders s) l' ->
  Async.outcome (getCustomerSpending (with_orders s l') v)
  = Async.outcome (getCustomerSpending s v).
Proof.
  intros P.
  destruct v as [cid|]; [|reflexivity].
  destruct (String.eqb_spec cid EmptyString) as [->|Hc]; [reflexivity|].
  assert (Q : Permutation (orders_of s cid) (orders_of (with_orders s l') cid))
    by (apply filter_Permutation; exact P).
  apply spending_outcome_transfer; [exact Hc | | |].
  - split; intros E; rewrite E in Q;
      [apply Permutation_nil in Q | apply Permutation_sym, Permutation_nil in Q];
      exact Q.
  - intros d. apply summary_of_Permutation. apply Permutation_sym. exact Q.
  - intros d. split; apply Permutation_in; apply Permutation_map;
      [exact Q | apply Permutation_sym; exact Q].
Qed.

Lemma getCustomerSpending_order_independent_witness :
  Async.outcome (getCustomerSpending
                   (with_orders Sample.store
                                [Sample.orderC; Sample.orderB; Sample.orderA])
                   (Some "c1"%string))
  = Async.outcome (getCustomerSpending Sample.store (Some "c1"%string)).
Proof.
  apply (getCustomerSpending_order_independent Sample.store
           [Sample.orderC; Sample.orderB; Sample.orderA] (Some "c1"%string)).
  cbn. apply Permutation_rev with (l := [Sample.orderA; Sample.orderB; Sample.orderC]).
Defined.

(** getCustomerSpending never reads the status of an order: pending and
    canceled orders count toward totalSpent, averageOrderValue and
    lastOrderDate exactly as completed ones do. *)
Theorem getCustomerSpending_ignores_status (s : Store) (f : Order -> Status)
    (v : option string) :
  Async.outcome (getCustomerSpending
                   (with_orders s (map (set_status f) (Orders s))) v)
  = Async.outcome (getCustomerSpending s v).
Proof.
  destruct v as [cid|]; [|reflexivity].
  destruct (String.eqb_spec cid EmptyString) as [->|Hc]; [reflexivity|].
  assert (E : orders_of (with_orders s (map (set_status f) (Orders s))) cid
              = map (set_status f) (orders_of s cid)).
  { unfold orders_of. cbn [Orders with_orders]. rewrite filter_map_swap. reflexivity. }
  apply spending_outcome_transfer; [exact Hc | | |]; rewrite E.
  - split; intros H; [rewrite H; reflexivity|].
    destruct (orders_of s cid); [reflexivity | discriminate].
  - intros d. unfold summary_of. rewrite map_map, length_map. reflexivity.
  - intros d. rewrite map_map. reflexivity.
Qed.

End SpendingInvariance.

(** ** Sums over groups *)

Section GroupSums.

Lemma fold_Zadd_acc (l : list Z) (a : Z) : fold_left Z.add l a = a + Num.sumZ l.
Proof.
  unfold Num.sumZ. revert a.
  induction l as [|x l IH]; intros a; simpl; [lia|].
  rewrite IH, (IH x). lia.
Qed.

Lemma sumZ_cons (x : Z) (l : list Z) : Num.sumZ (x :: l) = x + Num.sumZ l.
Proof. unfold Num.sumZ at 1. simpl. apply fold_Zadd_acc. Qed.

Lemma sumZ_Permutation (l l' : list Z) :
  Permutation l l' -> Num.sumZ l = Num.sumZ l'.
Proof.
  induction 1; rewrite ?sumZ_cons; lia.
Qed.

Lemma sumZ_map_add {X} (a b : X -> Z) (l : list X) :
  Num.sumZ (map (fun x => a x + b x) l) = Num.sumZ (map a l) + Num.sumZ (map b l).
Proof.
  induction l as [|x l IH]; [reflexivity|].
  cbn [map]. rewrite !sumZ_cons, IH. lia.
Qed.

Context {D K : Type}.
Variable eqb : K -> K -> bool.
Variable key : D -> K.
Variable f : D -> Z.
Hypothesis eqb_eq : forall a b, eqb a b = true <-> a = b.

Lemma group_by_In_conv (docs : list D) (k : K) :
  In k (map key docs) ->
  In (k, filter (fun d => eqb (key d) k) docs) (Stage.group_by eqb key docs).
Proof.
  intros H. unfold Stage.group_by.
  apply in_map_iff. exists k. split; [reflexivity|].
  apply (distinct_In eqb eqb_eq). exact H.
Qed.

Lemma sumZ_indicator (x : K) (v : Z) (ks : list K) :
  NoDup ks ->
  Num.sumZ (map (fun k => if eqb x k then v else 0) ks)
  = if existsb (eqb x) ks then v else 0.
Proof.
  induction 1 as [|k ks Hnin ND IH]; [reflexivity|].
  cbn [map existsb]. rewrite sumZ_cons, IH.
  destruct (eqb x k) eqn:E; cbn [orb]; [|lia].
  apply eqb_eq in E. subst k.
  destruct (existsb (eqb x) ks) eqn:Ex; [|lia].
  apply existsb_exists in Ex. destruct Ex as (y & Hy & Exy).
  apply eqb_eq in Exy. subst y. contradiction.
Qed.

(** Summing a field group by group is summing it over all the documents. *)
Lemma sumZ_by_key (ks : list K) (docs : list D) :
  NoDup ks -> (forall d, In d docs -> In (key d) ks) ->
  Num.sumZ (map (fun k => Num.sumZ (map f (filter (fun d => eqb (key d) k) docs))) ks)
  = Num.sumZ (map f docs).
Proof.
  intros ND. induction docs as [|d docs IH]; intros Hall.
  - cbn [filter map]. clear. induction ks as [|k ks IH]; [reflexivity|].
    cbn [map]. rewrite sumZ_cons, IH. reflexivity.
  - cbn [map]. rewrite sumZ_cons, <- IH by (intros x Hx; apply Hall; right; exact Hx).
    rewrite (map_ext
               (fun k => Num.sumZ (map f (filter (fun d0 => eqb (key d0) k) (d :: docs))))
               (fun k => (if eqb (key d) k then f d else 0)
                         + Num.sumZ (map f (filter (fun d0 => eqb (key d0) k) docs)))).
    + assert (Hin : existsb (eqb (key d)) ks = true).
      { apply existsb_exists. exists (key d).
        split; [apply Hall; left; reflexivity | apply eqb_eq; reflexivity]. }
      rewrite sumZ_map_add, (sumZ_indicator (key d) (f d) ks ND), Hin.
      reflexivity.
    + intros k. cbn [filter]. destruct (eqb (key d) k); cbn [map];
        [rewrite sumZ_cons|]; lia.
Qed.

Lemma sumZ_group_by (docs : list D) :
  Num.sumZ (map (fun g : K * list D => Num.sumZ (map f (snd g)))
                (Stage.group_by eqb key docs))
  = Num.sumZ (map f docs).
Proof.
  unfold Stage.group_by. rewrite map_map. cbn [snd].
  apply sumZ_by_key.
  - apply (distinct_NoDup eqb eqb_eq).
  - intros d Hd. apply (distinct_In eqb eqb_eq). apply in_map. exact Hd.
Qed.

End GroupSums.

(** ** getTopSellingProducts: ranking, coverage and totals *)

Section TopSellingRanking.

Lemma StronglySorted_app_inv {X} (R : X -> X -> Prop) (l1 l2 : list X) :
  StronglySorted R (l1 ++ l2) ->
  forall a b, In a l1 -> In b l2 -> R a b.
Proof.
  induction l1 as [|x l1 IH]; intros S a b Ha Hb; [destruct Ha|].
  simpl in S. apply StronglySorted_inv in S. destruct S as [S F].
  destruct Ha as [<-|Ha].
  - rewrite Forall_forall in F. apply F. apply in_or_app. right. exact Hb.
  - apply (IH S a b Ha Hb).
Qed.

(** With unique ids and every key on record, the join keeps each document
    once. *)
Lemma lookup_unwind_total {X} (Prods : list Product) (fk : X -> string)
    (l : list X) :
  NoDup (map product_id Prods) ->
  (forall x, In x l -> exists p, In p Prods /\ product_id p = fk x) ->
  map fst (Stage.lookup_unwind Prods fk l) = l.
Proof.
  intros Hu. unfold Stage.lookup_unwind.
  induction l as [|x l IH]; intros Hall; [reflexivity|].
  cbn [flat_map]. rewrite map_app, IH by (intros y Hy; apply Hall; right; exact Hy).
  pose proof (filter_unique_id Prods (fk x) Hu) as Hlen.
  destruct (Hall x (or_introl eq_refl)) as (p & Hp & Hid).
  assert (Hin : In p (filter (fun q => (product_id q =? fk x)%string) Prods))
    by (apply filter_In; split; [exact Hp | apply String.eqb_eq; exact Hid]).
  destruct (filter (fun q => (product_id q =? fk x)%string) Prods) as [|q [|q' qs]];
    [destruct Hin | reflexivity | simpl in Hlen; lia].
Qed.

Variable s : Store.
Variable limit : Z.
Hypothesis limit_positive : 0 < limit.
Hypothesis answered : failing s (Order_aggregate (topSellingPipeline limit)) = false.

Local Abbreviation ranking :=
  (TopSelling.sortStage (TopSelling.groupStage (Stage.unwind_products (Orders s)))).

Lemma top_returns :
  getTopSellingProducts s (Some limit) =
  ([StoreAccess (Order_aggregate (topSellingPipeline limit))],
   Return (map TopSelling.projectStage
               (Stage.lookup_unwind (Products s) TopSelling.g_id
                                    (Stage.limit limit ranking)))).
Proof.
  unfold getTopSellingProducts.
  replace (bad_limit (Some limit)) with false.
  - rewrite aggregate_outcome, answered. reflexivity.
  - symmetry. simpl. apply orb_false_iff.
    split; [apply Z.eqb_neq | apply Z.leb_gt]; lia.
Qed.

Lemma ranking_In (g : TopSelling.Group) :
  In g ranking <->
  In (TopSelling.g_id g) (map productId (Stage.unwind_products (Orders s)))
  /\ g = {| TopSelling.g_id := TopSelling.g_id g;
            TopSelling.g_totalSold :=
              Num.sumZ (map quantity (items_of s (TopSelling.g_id g))) |}.
Proof.
  split.
  - intros H. apply (Permutation_in _ (sort_desc_Permutation _ _)) in H.
    pose proof (groupStage_totalSold _ _ H) as T.
    unfold TopSelling.groupStage in H. apply in_map_iff in H.
    destruct H as ([k docs] & <- & Hin).
    apply (group_by_In String.eqb productId String.eqb_eq) in Hin.
    destruct Hin as [-> Hk]. split; [exact Hk | reflexivity].
  - intros [Hk E].
    apply (Permutation_in _ (Permutation_sym (sort_desc_Permutation _ _))).
    unfold TopSelling.groupStage. apply in_map_iff.
    exists (TopSelling.g_id g,
            filter (fun it => (productId it =? TopSelling.g_id g)%string)
                   (Stage.unwind_products (Orders s))).
    split; [symmetry; exact E|].
    apply (group_by_In_conv String.eqb productId String.eqb_eq). exact Hk.
Qed.

End TopSellingRanking.

(** When the aggregation fails, getTopSellingProducts logs the error and
    rejects with INTERNAL_SERVER_ERROR. *)
Theorem getTopSellingProducts_store_failure (s : Store) (limit : Z) :
  0 < limit ->
  failing s (Order_aggregate (topSellingPipeline limit)) = true ->
  getTopSellingProducts s (Some limit) =
  ([StoreAccess (Order_aggregate (topSellingPipeline limit));
    ConsoleError "Error in getTopSellingProducts:"],
   Throw (graphQLError "Could not fetch top selling products." INTERNAL_SERVER_ERROR)).
Proof.
  intros Hpos Hf. unfold getTopSellingProducts.
  replace (bad_limit (Some limit)) with false.
  - rewrite aggregate_outcome, Hf. reflexivity.
  - symmetry. simpl. apply orb_false_iff.
    split; [apply Z.eqb_neq | apply Z.leb_gt]; lia.
Qed.

Lemma getTopSellingProducts_store_failure_witness :
  getTopSellingProducts Sample.down (Some 3) =
  ([StoreAccess (Order_aggregate (topSellingPipeline 3));
    ConsoleError "Error in getTopSellingProducts:"],
   Throw (graphQLError "Could not fetch top selling products." INTERNAL_SERVER_ERROR)).
Proof.
  apply (getTopSellingProducts_store_failure Sample.down 3); [lia | reflexivity].
Defined.

(** A product on record that was sold and is missing from the answer sold no
    more than any product in the answer: the limit cuts the ranking from
    below. *)
Theorem getTopSellingProducts_cuts_from_below (s : Store) (limit : Z)
    (p : Product) :
  0 < limit ->
  failing s (Order_aggregate (topSellingPipeline limit)) = false ->
  In p (Products s) ->
  items_of s (product_id p) <> [] ->
  exists r,
    Async.outcome (getTopSellingProducts s (Some limit)) = Return r
    /\ ((forall e, In e r -> tp_productId e <> product_id p) ->
        forall e, In e r ->
          Num.sumZ (map quantity (items_of s (product_id p))) <= totalSold e).
Proof.
  intros Hpos Hf Hp Hsold.
  eexists. split; [rewrite (top_returns s limit Hpos Hf); reflexivity|].
  intros Habsent e He.
  set (g := {| TopSelling.g_id := product_id p;
               TopSelling.g_totalSold :=
                 Num.sumZ (map quantity (items_of s (product_id p))) |}).
  assert (Hg : In g (TopSelling.sortStage
                       (TopSelling.groupStage (Stage.unwind_products (Orders s))))).
  { apply ranking_In. split; [|reflexivity]. cbn.
    destruct (items_of s (product_id p)) as [|it t] eqn:E; [contradiction|].
    assert (Hit : In it (items_of s (product_id p))) by (rewrite E; left; reflexivity).
    apply filter_In in Hit. destruct Hit as [Hit Hid].
    apply String.eqb_eq in Hid. rewrite <- Hid. apply in_map. exact Hit. }
  rewrite <- (firstn_skipn (Z.to_nat limit)) in Hg.
  apply in_app_or in Hg. destruct Hg as [Hg|Hg].
  - exfalso. apply (Habsent (TopSelling.projectStage (g, p))); [|reflexivity].
    apply in_map. apply lookup_unwind_In. auto.
  - apply in_map_iff in He. destruct He as ([g' p'] & <- & He).
    apply lookup_unwind_In in He. destruct He as (Hg' & _ & _).
    pose proof (sort_desc_StronglySorted TopSelling.g_totalSold
                  (TopSelling.groupStage (Stage.unwind_products (Orders s)))) as S.
    change (Stage.sort_desc _ _)
      with (TopSelling.sortStage
              (TopSelling.groupStage (Stage.unwind_products (Orders s)))) in S.
    rewrite <- (firstn_skipn (Z.to_nat limit)) in S.
    pose proof (StronglySorted_app_inv _ _ _ S g' g Hg' Hg) as H.
    cbn in H |- *. lia.
Qed.

Lemma getTopSellingProducts_cuts_from_below_witness :
  exists r,
    Async.outcome (getTopSellingProducts
                     (with_orders Sample.store [Sample.orderA; Sample.orderB])
                     (Some 1)) = Return r
    /\ ((forall e, In e r ->
           tp_productId e <> product_id (mkProduct "p2" "Lamp" "lighting" (5 # 1) 3)) ->
        forall e, In e r ->
          Num.sumZ (map quantity
                        (items_of (with_orders Sample.store [Sample.orderA; Sample.orderB])
                                  (product_id (mkProduct "p2" "Lamp" "lighting" (5 # 1) 3))))
          <= totalSold e).
Proof.
  apply (getTopSellingProducts_cuts_from_below
           (with_orders Sample.store [Sample.orderA; Sample.orderB]) 1
           (mkProduct "p2" "Lamp" "lighting" (5 # 1) 3)).
  - lia.
  - reflexivity.
  - right. left. reflexivity.
  - discriminate.
Defined.

Section TopSellingCoverage.

Variable s : Store.
Variable limit : Z.
Hypothesis limit_positive : 0 < limit.
Hypothesis answered : failing s (Order_aggregate (topSellingPipeline limit)) = false.
Hypothesis unique : unique_product_ids s.
Hypothesis matched : all_matched s.

Local Abbreviation groups :=
  (TopSelling.groupStage (Stage.unwind_products (Orders s))).

Lemma groups_ids : map TopSelling.g_id groups = products_sold s.
Proof.
  unfold TopSelling.groupStage, Stage.group_by, products_sold.
  rewrite !map_map. cbn. apply map_id.
Qed.

Lemma groups_total :
  Num.sumZ (map TopSelling.g_totalSold groups)
  = Num.sumZ (map quantity (Stage.unwind_products (Orders s))).
Proof.
  unfold TopSelling.groupStage. rewrite map_map.
  rewrite (map_ext _ (fun g : string * list OrderItem => Num.sumZ (map quantity (snd g))))
    by (intros [k docs]; reflexivity).
  apply (sumZ_group_by String.eqb productId quantity String.eqb_eq).
Qed.

(** When every line item names a product on record, the join loses none of
    the groups that passed the limit. *)
Lemma joined_all :
  map fst (Stage.lookup_unwind (Products s) TopSelling.g_id
             (Stage.limit limit (TopSelling.sortStage groups)))
  = Stage.limit limit (TopSelling.sortStage groups).
Proof.
  apply lookup_unwind_total; [exact unique|].
  intros g Hg. unfold Stage.limit in Hg. apply firstn_In in Hg.
  apply ranking_In in Hg. destruct Hg as [Hk _].
  apply in_map_iff in Hk. destruct Hk as (it & E & Hit).
  destruct (matched it Hit) as (p & Hp & Hid).
  exists p. split; [exact Hp | congruence].
Qed.

Lemma projected_ids {l : list (TopSelling.Group * Product)} :
  map tp_productId (map TopSelling.projectStage l) = map TopSelling.g_id (map fst l).
Proof. rewrite !map_map. apply map_ext. intros [g p]. reflexivity. Qed.

Lemma projected_totals {l : list (TopSelling.Group * Product)} :
  map totalSold (map TopSelling.projectStage l)
  = map TopSelling.g_totalSold (map fst l).
Proof. rewrite !map_map. apply map_ext. intros [g p]. reflexivity. Qed.

End TopSellingCoverage.

(** When every line item names a product on record, getTopSellingProducts
    returns as many entries as the limit allows: the limit, or the number of
    distinct products sold if that is smaller. *)
Theorem getTopSellingProducts_count (s : Store) (limit : Z) :
  0 < limit ->
  failing s (Order_aggregate (topSellingPipeline limit)) = false ->
  unique_product_ids s ->
  all_matched s ->
  exists r,
    Async.outcome (getTopSellingProducts s (Some limit)) = Return r
    /\ List.length r = Nat.min (Z.to_nat limit) (List.length (products_sold s)).
Proof.
  intros Hpos Hf Hu Hm.
  eexists. split; [rewrite (top_returns s limit Hpos Hf); reflexivity|].
  rewrite length_map.
  rewrite <- (length_map fst), (joined_all s limit Hu Hm).
  unfold Stage.limit. rewrite length_firstn. f_equal.
  rewrite <- (groups_ids s), length_map.
  apply Permutation_length. apply sort_desc_Permutation.
Qed.

Lemma getTopSellingProducts_count_witness :
  exists r,
    Async.outcome (getTopSellingProducts
                     (with_orders Sample.store [Sample.orderA; Sample.orderB])
                     (Some 5)) = Return r
    /\ List.length r
       = Nat.min (Z.to_nat 5)
                 (List.length (products_sold
                                 (with_orders Sample.store [Sample.orderA; Sample.orderB]))).
Proof.
  apply (getTopSellingProducts_count
           (with_orders Sample.store [Sample.orderA; Sample.orderB]) 5).
  - lia.
  - reflexivity.
  - unfold unique_product_ids. simpl.
    repeat constructor; simpl; intuition discriminate.
  - intros it [<-|[<-|[<-|[]]]].
    + exists (mkProduct "p1" "Kettle" "kitchen" (20 # 1) 7).
      split; [left; reflexivity | reflexivity].
    + exists (mkProduct "p2" "Lamp" "lighting" (5 # 1) 3).
      split; [right; left; reflexivity | reflexivity].
    + exists (mkProduct "p1" "Kettle" "kitchen" (20 # 1) 7).
      split; [left; reflexivity | reflexivity].
Defined.

(** When every line item names a product on record and the limit is at
    least the number of distinct products sold, the answer lists exactly the
    products sold and its totals add up to the quantity of all line items:
    nothing is lost and nothing is counted twice. *)
Theorem getTopSellingProducts_complete (s : Store) (limit : Z) :
  failing s (Order_aggregate (topSellingPipeline limit)) = false ->
  unique_product_ids s ->
  all_matched s ->
  0 < limit ->
  Z.of_nat (List.length (products_sold s)) <= limit ->
  exists r,
    Async.outcome (getTopSellingProducts s (Some limit)) = Return r
    /\ Permutation (map tp_productId r) (products_sold s)
    /\ Num.sumZ (map totalSold r)
       = Num.sumZ (map quantity (Stage.unwind_products (Orders s))).
Proof.
  intros Hf Hu Hm Hpos Hall.
  eexists. split; [rewrite (top_returns s limit Hpos Hf); reflexivity|].
  assert (L : Stage.limit limit
                (TopSelling.sortStage
                   (TopSelling.groupStage (Stage.unwind_products (Orders s))))
              = TopSelling.sortStage
                  (TopSelling.groupStage (Stage.unwind_products (Orders s)))).
  { unfold Stage.limit, TopSelling.sortStage. apply firstn_all2.
    rewrite (Permutation_length (sort_desc_Permutation _ _)).
    rewrite <- (length_map TopSelling.g_id), (groups_ids s). lia. }
  split.
  - rewrite projected_ids, (joined_all s limit Hu Hm), L, <- (groups_ids s).
    apply Permutation_map. apply sort_desc_Permutation.
  - rewrite projected_totals, (joined_all s limit Hu Hm), L, <- (groups_total s).
    apply sumZ_Permutation. apply Permutation_map. apply sort_desc_Permutation.
Qed.

Lemma getTopSellingProducts_complete_witness :
  exists r,
    Async.outcome (getTopSellingProducts
                     (with_orders Sample.store [Sample.orderA; Sample.orderB])
                     (Some 2)) = Return r
    /\ Permutation (map tp_productId r)
                   (products_sold (with_orders Sample.store [Sample.orderA; Sample.orderB]))
    /\ Num.sumZ (map totalSold r)
       = Num.sumZ (map quantity
                       (Stage.unwind_products
                          (Orders (with_orders Sample.store [Sample.orderA; Sample.orderB])))).
Proof.
  apply (getTopSellingProducts_complete
           (with_orders Sample.store [Sample.orderA; Sample.orderB]) 2).
  - reflexivity.
  - unfold unique_product_ids. simpl.
    repeat constructor; simpl; intuition discriminate.
  - intros it [<-|[<-|[<-|[]]]].
    + exists (mkProduct "p1" "Kettle" "kitchen" (20 # 1) 7).
      split; [left; reflexivity | reflexivity].
    + exists (mkProduct "p2" "Lamp" "lighting" (5 # 1) 3).
      split; [right; left; reflexivity | reflexivity].
    + exists (mkProduct "p1" "Kettle" "kitchen" (20 # 1) 7).
      split; [left; reflexivity | reflexivity].
  - lia.
  - vm_compute. discriminate.
Defined.

(** ** getSalesAnalytics: failures, empty windows and the breakdown *)

Section AnalyticsOutcomes.

Variable newDate : string -> option Z.

(** A returned value comes from valid, ordered dates and is the analytics of
    the orders the [$match] stage keeps. *)
Lemma analytics_returns_inv (s : Store) (startDate endDate : string)
    (r : SalesAnalytics) :
  Async.outcome (getSalesAnalytics newDate s startDate endDate) = Return r ->
  exists start finish,
    newDate startDate = Some start /\ newDate endDate = Some finish
    /\ start < finish
    /\ failing s (Order_aggregate (overallAnalyticsPipeline start finish)) = false
    /\ failing s (Order_aggregate (categoryBreakdownPipeline start finish)) = false
    /\ r = analytics_of (Products s) (Analytics.matchStage start finish (Orders s)).
Proof.
  intros H.
  destruct (newDate startDate) as [a|] eqn:Ea;
    [|unfold getSalesAnalytics in H; rewrite Ea in H; cbn in H; discriminate].
  destruct (newDate endDate) as [b|] eqn:Eb;
    [|unfold getSalesAnalytics in H; rewrite Ea, Eb in H; cbn in H; discriminate].
  destruct (a >=? b) eqn:G;
    [unfold getSalesAnalytics in H; rewrite Ea, Eb, G in H; cbn in H; discriminate|].
  assert (L : a < b) by (rewrite Z.geb_leb in G; apply Z.leb_gt in G; exact G).
  destruct (failing s (Order_aggregate (overallAnalyticsPipeline a b))) eqn:F1.
  { unfold getSalesAnalytics in H. rewrite Ea, Eb, G, !aggregate_outcome, F1 in H.
    destruct (failing s (Order_aggregate (categoryBreakdownPipeline a b)));
      cbn in H; discriminate. }
  destruct (failing s (Order_aggregate (categoryBreakdownPipeline a b))) eqn:F2.
  { unfold getSalesAnalytics in H. rewrite Ea, Eb, G, !aggregate_outcome, F1, F2 in H.
    cbn in H. discriminate. }
  exists a, b. repeat (split; [solve [auto]|]).
  rewrite (analytics_returns newDate s _ _ a b Ea Eb L F1 F2) in H.
  cbn in H. inversion H. reflexivity.
Qed.

End AnalyticsOutcomes.

(** With valid dates, when one of the two aggregations fails the resolver
    rejects with INTERNAL_SERVER_ERROR; both aggregations were started. *)
Theorem getSalesAnalytics_store_failure (newDate : string -> option Z) (s : Store)
    (startDate endDate : string) (start finish : Z) :
  newDate startDate = Some start ->
  newDate endDate = Some finish ->
  start < finish ->
  failing s (Order_aggregate (overallAnalyticsPipeline start finish)) = true
  \/ failing s (Order_aggregate (categoryBreakdownPipeline start finish)) = true ->
  getSalesAnalytics newDate s startDate endDate =
  ([StoreAccess (Order_aggregate (overallAnalyticsPipeline start finish));
    StoreAccess (Order_aggregate (categoryBreakdownPipeline start finish));
    ConsoleError "Error in getSalesAnalytics:"],
   Throw (graphQLError "Could not fetch sales analytics." INTERNAL_SERVER_ERROR)).
Proof.
  intros Ha Hb Hlt Hfail. unfold getSalesAnalytics.
  rewrite Ha, Hb.
  replace (start >=? finish) with false
    by (symmetry; rewrite Z.geb_leb; apply Z.leb_gt; exact Hlt).
  rewrite !aggregate_outcome.
  destruct (failing s (Order_aggregate (overallAnalyticsPipeline start finish)));
    destruct (failing s (Order_aggregate (categoryBreakdownPipeline start finish)));
    try reflexivity.
  destruct Hfail; discriminate.
Qed.

Lemma getSalesAnalytics_store_failure_witness :
  getSalesAnalytics Sample.newDate Sample.down "2024-01-05" "2024-01-10" =
  ([StoreAccess (Order_aggregate (overallAnalyticsPipeline 1704412800000 1704844800000));
    StoreAccess (Order_aggregate (categoryBreakdownPipeline 1704412800000 1704844800000));
    ConsoleError "Error in getSalesAnalytics:"],
   Throw (graphQLError "Could not fetch sales analytics." INTERNAL_SERVER_ERROR)).
Proof.
  apply (getSalesAnalytics_store_failure Sample.newDate Sample.down
           "2024-01-05" "2024-01-10" 1704412800000 1704844800000).
  - reflexivity.
  - reflexivity.
  - lia.
  - left. reflexivity.
Defined.

(** A window in which no completed order falls is not an error: the answer
    is a revenue of 0, a count of 0 and an empty breakdown. *)
Theorem getSalesAnalytics_empty_window (newDate : string -> option Z) (s : Store)
    (startDate endDate : string) (start finish : Z) :
  newDate startDate = Some start ->
  newDate endDate = Some finish ->
  start < finish ->
  failing s (Order_aggregate (overallAnalyticsPipeline start finish)) = false ->
  failing s (Order_aggregate (categoryBreakdownPipeline start finish)) = false ->
  (forall o, In o (Orders s) -> status o = completed ->
             ~ (start <= orderDate o < finish)) ->
  Async.outcome (getSalesAnalytics newDate s startDate endDate) =
  Return {| totalRevenue := 0; completedOrders := 0; categoryBreakdown := [] |}.
Proof.
  intros Ha Hb Hlt F1 F2 Hnone.
  rewrite (analytics_returns newDate s _ _ _ _ Ha Hb Hlt F1 F2).
  assert (E : Analytics.matchStage start finish (Orders s) = []).
  { apply filter_none. intros o Ho.
    destruct (Analytics.matches start finish o) eqn:M; [|reflexivity].
    apply matches_spec in M. destruct M as [Hs Hw].
    exfalso. exact (Hnone o Ho Hs Hw). }
  rewrite E. reflexivity.
Qed.

Lemma getSalesAnalytics_empty_window_witness :
  Async.outcome (getSalesAnalytics Sample.newDate
                   (with_orders Sample.store [Sample.orderA; Sample.orderC])
                   "2024-01-10" "2024-02-01") =
  Return {| totalRevenue := 0; completedOrders := 0; categoryBreakdown := [] |}.
Proof.
  apply (getSalesAnalytics_empty_window Sample.newDate
           (with_orders Sample.store [Sample.orderA; Sample.orderC])
           "2024-01-10" "2024-02-01" 1704844800000 1706745600000).
  - reflexivity.
  - reflexivity.
  - lia.
  - reflexivity.
  - reflexivity.
  - intros o [<-|[<-|[]]] Hs; cbn; try discriminate; lia.
Defined.

Section BreakdownFacts.

(** [toFixed(2)] leaves a number of two decimals as it is. *)
Lemma toFixed2_hundredths (k : Z) : Num.toFixed2 (k # 100) = k # 100.
Proof.
  unfold Num.toFixed2.
  assert (F : Qfloor (Qabs (k # 100) * 100 + (1 # 2)) = Z.abs k).
  { unfold Qfloor, Qabs, Qmult, Qplus. cbn [Qnum Qden inject_Z].
    change (Z.pos (100 * 1)) with 100.
    change (Z.pos (100 * 1 * 2)) with 200.
    symmetry. apply (Z.div_unique _ _ _ 100); lia. }
  rewrite F.
  destruct (Qle_bool 0 (k # 100)) eqn:E.
  - apply Qle_bool_iff in E. unfold Qle in E. cbn in E. f_equal. lia.
  - assert (N : ~ (0 <= k # 100)%Q) by (rewrite <- Qle_bool_iff; congruence).
    unfold Qle in N. cbn in N. f_equal. lia.
Qed.

Variable Prods : list Product.
Variable counted : list Order.

Local Abbreviation grouped :=
  (map Analytics.roundProject
       (Analytics.categoryGroup (joined_items Prods counted))).

(** The values that reach the resolver were rounded by the pipeline, so the
    [toFixed(2)] pass of the resolver changes none of them. *)
Lemma breakdown_of_eq : breakdown_of Prods counted = Analytics.sortStage grouped.
Proof.
  unfold breakdown_of.
  rewrite <- (map_id (Analytics.sortStage grouped)) at 2.
  apply map_ext_in. intros c Hc.
  apply (Permutation_in _ (sort_desc_Permutation _ _)) in Hc.
  apply in_map_iff in Hc. destruct Hc as (c0 & <- & _).
  unfold Analytics.roundProject, Num.mongoRound2. cbn [revenue cr_category].
  rewrite toFixed2_hundredths. reflexivity.
Qed.

Lemma sortStage_by_revenue (l : list CategoryRevenue) :
  StronglySorted (fun a b => (revenue b <= revenue a)%Q) (Analytics.sortStage l).
Proof.
  assert (S : Sorted (fun a b => Qle_bool (revenue b) (revenue a) = true)
                     (Analytics.sortStage l)).
  { apply sort_desc_Sorted. intros x y H.
    apply Qle_bool_iff.
    assert (N : ~ (revenue y <= revenue x)%Q) by (rewrite <- Qle_bool_iff; congruence).
    apply Qlt_le_weak. apply Qnot_le_lt. exact N. }
  apply Sorted_StronglySorted in S.
  - eapply StronglySorted_impl; [|exact S].
    intros a b H. apply Qle_bool_iff. exact H.
  - intros x y z H1 H2. apply Qle_bool_iff in H1, H2. apply Qle_bool_iff.
    eapply Qle_trans; eassumption.
Qed.

Lemma grouped_categories_NoDup : NoDup (map cr_category grouped).
Proof.
  unfold Analytics.categoryGroup. rewrite !map_map.
  rewrite (map_ext _ (@fst string (list (Analytics.ItemRevenue * Product))))
    by (intros [k docs]; reflexivity).
  apply (group_by_keys_NoDup String.eqb _ String.eqb_eq).
Qed.

End BreakdownFacts.

(** In every result of getSalesAnalytics the categoryBreakdown is in
    non-increasing order of revenue, no category appears twice, and every
    revenue, like totalRevenue, is written with two decimals. *)
Theorem getSalesAnalytics_breakdown_ordered (newDate : string -> option Z)
    (s : Store) (startDate endDate : string) (r : SalesAnalytics) :
  Async.outcome (getSalesAnalytics newDate s startDate endDate) = Return r ->
  StronglySorted (fun a b => (revenue b <= revenue a)%Q) (categoryBreakdown r)
  /\ NoDup (map cr_category (categoryBreakdown r))
  /\ Forall (fun c => Num.two_decimals (revenue c)) (categoryBreakdown r)
  /\ Num.two_decimals (totalRevenue r).
Proof.
  intros H. apply analytics_returns_inv in H.
  destruct H as (a & b & _ & _ & _ & _ & _ & ->).
  cbn [analytics_of categoryBreakdown totalRevenue].
  split; [|split; [|split]].
  - rewrite breakdown_of_eq. apply sortStage_by_revenue.
  - rewrite breakdown_of_eq.
    apply (Permutation_NoDup
             (Permutation_sym (Permutation_map cr_category (sort_desc_Permutation _ _)))).
    apply grouped_categories_NoDup.
  - apply Forall_forall. intros c Hc. unfold breakdown_of in Hc.
    apply in_map_iff in Hc. destruct Hc as (c0 & <- & _).
    apply toFixed2_two_decimals.
  - destruct (Analytics.matchStage a b (Orders s));
      [apply two_decimals_zero | apply toFixed2_two_decimals].
Qed.

Lemma getSalesAnalytics_breakdown_ordered_witness :
  StronglySorted (fun a b => (revenue b <= revenue a)%Q)
                 (categoryBreakdown
                    (analytics_of (Products Sample.store) [Sample.orderA; Sample.orderB]))
  /\ NoDup (map cr_category
                (categoryBreakdown
                   (analytics_of (Products Sample.store) [Sample.orderA; Sample.orderB])))
  /\ Forall (fun c => Num.two_decimals (revenue c))
            (categoryBreakdown
               (analytics_of (Products Sample.store) [Sample.orderA; Sample.orderB]))
  /\ Num.two_decimals
       (totalRevenue (analytics_of (Products Sample.store) [Sample.orderA; Sample.orderB])).
Proof.
  apply (getSalesAnalytics_breakdown_ordered Sample.newDate Sample.store
           "2024-01-05" "2024-02-01").
  reflexivity.
Defined.

Section CategoryRevenue.

Variable Prods : list Product.
Hypothesis unique : NoDup (map product_id Prods).

(** With unique ids the join finds the one product [find] finds. *)
Lemma filter_find_unique (k : string) :
  filter (fun p => (product_id p =? k)%string) Prods
  = match find (fun p => (product_id p =? k)%string) Prods with
    | Some p => [p]
    | None => []
    end.
Proof.
  induction Prods as [|p ps IH]; [reflexivity|].
  inversion unique as [|? ? Hnin ND]; subst.
  cbn [filter find].
  destruct (String.eqb_spec (product_id p) k) as [E|E]; [|apply IH; exact ND].
  f_equal. apply filter_none. intros q Hq. apply String.eqb_neq.
  intros Eq. apply Hnin. rewrite E, <- Eq. apply in_map. exact Hq.
Qed.

(** The documents of one category after the join are the line items whose
    product is in that category. *)
Lemma joined_in_category (c : string) (items : list OrderItem) :
  map (fun d : Analytics.ItemRevenue * Product => Analytics.itemRevenue (fst d))
      (filter (fun d => (category (snd d) =? c)%string)
              (Stage.lookup_unwind Prods Analytics.i_productId
                                   (map Analytics.itemProject items)))
  = map item_revenue (filter (in_category Prods c) items).
Proof.
  unfold Stage.lookup_unwind.
  induction items as [|it items IH]; [reflexivity|].
  cbn [map flat_map filter]. rewrite filter_app, map_app, IH.
  rewrite filter_find_unique.
  unfold in_category at 2, category_of. cbn [Analytics.itemProject Analytics.i_productId].
  destruct (find (fun p => (product_id p =? productId it)%string) Prods) as [p|];
    [|reflexivity].
  cbn [map filter snd option_map].
  destruct (category p =? c)%string; reflexivity.
Qed.

End CategoryRevenue.



(** totalRevenue and completedOrders are computed from the stored
    totalAmount of the counted orders alone: rewriting the line items of the
    orders and replacing the product collection changes neither, so they
    need not agree with the categoryBreakdown. *)
Theorem getSalesAnalytics_totals_ignore_items (newDate : string -> option Z)
    (s : Store) (startDate endDate : string)
    (items : Order -> list OrderItem) (ps : list Product) (r : SalesAnalytics) :
  Async.outcome (getSalesAnalytics newDate s startDate endDate) = Return r ->
  exists r',
    Async.outcome
      (getSalesAnalytics newDate
         (with_products (with_orders s (map (set_items items) (Orders s))) ps)
         startDate endDate) = Return r'
    /\ totalRevenue r' = totalRevenue r
    /\ completedOrders r' = completedOrders r.
Proof.
  intros H. apply analytics_returns_inv in H.
  destruct H as (a & b & Ha & Hb & Hlt & F1 & F2 & ->).
  eexists. split.
  - rewrite (analytics_returns newDate _ _ _ _ _ Ha Hb Hlt); [reflexivity | exact F1 | exact F2].
  - cbn [with_products with_orders Orders Products analytics_of
         totalRevenue completedOrders].
    unfold Analytics.matchStage. rewrite filter_map_swap.
    change (fun o => Analytics.matches a b (set_items items o))
      with (Analytics.matches a b).
    rewrite length_map.
    destruct (filter (Analytics.matches a b) (Orders s)) as [|o t] eqn:E;
      [split; reflexivity|].
    rewrite <- E, map_map. cbn [map set_items totalAmount].
    rewrite E. split; reflexivity.
Qed.

Lemma getSalesAnalytics_totals_ignore_items_witness :
  exists r',
    Async.outcome
      (getSalesAnalytics Sample.newDate
         (with_products
            (with_orders Sample.store
                         (map (set_items (fun _ => [])) (Orders Sample.store))) [])
         "2024-01-05" "2024-02-01") = Return r'
    /\ totalRevenue r'
       = totalRevenue (analytics_of (Products Sample.store) [Sample.orderA; Sample.orderB])
    /\ completedOrders r'
       = completedOrders (analytics_of (Products Sample.store) [Sample.orderA; Sample.orderB]).
Proof.
  apply (getSalesAnalytics_totals_ignore_items Sample.newDate Sample.store
           "2024-01-05" "2024-02-01" (fun _ => []) []).
  reflexivity.
Defined.

(** ** Point lookups: what they return *)

Section LookupRoundTrip.

Lemma find_unique {D} (key : D -> string) (coll : list D) (d : D) :
  NoDup (map key coll) -> In d coll ->
  find (fun x => (key x =? key d)%string) coll = Some d.
Proof.
  induction coll as [|x coll IH]; intros ND Hin; [destruct Hin|].
  inversion ND as [|? ? Hnin ND']; subst.
  cbn [find]. destruct (String.eqb_spec (key x) (key d)) as [E|E].
  - destruct Hin as [->|Hin]; [reflexivity|].
    exfalso. apply Hnin. rewrite E. apply in_map. exact Hin.
  - destruct Hin as [->|Hin]; [congruence|]. apply IH; assumption.
Qed.

Context {D : Type}.
Variable call : string -> StoreCall.
Variable coll : Store -> list D.
Variable key : D -> string.
Variables notFound logLabel invalidFormat generic : string.

Local Abbreviation get :=
  (lookup call coll key notFound logLabel invalidFormat generic).

Lemma lookup_stored (s : Store) (d : D) :
  NoDup (map key (coll s)) -> In d (coll s) ->
  idFormat s (key d) = true -> failing s (call (key d)) = false ->
  get s (key d) = ([StoreAccess (call (key d))], Return d).
Proof.
  intros ND Hin Hf Hc. unfold lookup.
  rewrite findById_outcome, Hf, Hc, (find_unique key _ d ND Hin). reflexivity.
Qed.

Lemma lookup_store_failure (s : Store) (id : string) :
  idFormat s id = true -> failing s (call id) = true ->
  get s id = ([StoreAccess (call id); ConsoleError logLabel],
              Throw (ThrowGraphQL (mkGraphQLError generic None))).
Proof.
  intros Hf Hc. unfold lookup. rewrite findById_outcome, Hf, Hc. reflexivity.
Qed.

Lemma lookup_BAD_USER_INPUT_iff (s : Store) (id : string) :
  rejects (get s id) BAD_USER_INPUT <-> idFormat s id = false.
Proof.
  split; [|apply lookup_malformed].
  unfold lookup, rejects. rewrite findById_outcome.
  destruct (idFormat s id); [|reflexivity].
  cbn [negb]. destruct (failing s (call id)); cbn;
    [|destruct (find _ (coll s)); cbn];
    intros (g & Ho & Hc); inversion Ho; subst; discriminate.
Qed.

End LookupRoundTrip.

(** A customer, product or order that is in the store is what the lookup of
    its id returns, after a single store call and without a log line,
    provided ids are unique, fit the key format and the store answers. *)
Theorem point_lookups_return_stored (s : Store) (c : Customer) (p : Product)
    (o : Order) :
  In c (Customers s) -> In p (Products s) -> In o (Orders s) ->
  NoDup (map customer_id (Customers s)) ->
  NoDup (map product_id (Products s)) ->
  NoDup (map order_id (Orders s)) ->
  idFormat s (customer_id c) = true ->
  idFormat s (product_id p) = true ->
  idFormat s (order_id o) = true ->
  healthy s ->
  getCustomer s (customer_id c)
  = ([StoreAccess (Customer_findById (customer_id c))], Return c)
  /\ getProduct s (product_id p)
     = ([StoreAccess (Product_findById (product_id p))], Return p)
  /\ getOrder s (order_id o)
     = ([StoreAccess (Order_findById (order_id o))], Return o).
Proof.
  intros Hc Hp Ho Nc Np No Fc Fp Fo Hh.
  split; [|split].
  - apply (lookup_stored Customer_findById Customers customer_id); auto.
  - apply (lookup_stored Product_findById Products product_id); auto.
  - apply (lookup_stored Order_findById Orders order_id); auto.
Qed.

Lemma point_lookups_return_stored_witness :
  getCustomer Sample.store "c3"
  = ([StoreAccess (Customer_findById "c3")],
     Return (mkCustomer "c3" "Bob" "bob@example.com" None None None))
  /\ getProduct Sample.store "p2"
     = ([StoreAccess (Product_findById "p2")],
        Return (mkProduct "p2" "Lamp" "lighting" (5 # 1) 3))
  /\ getOrder Sample.store "B"
     = ([StoreAccess (Order_findById "B")], Return Sample.orderB).
Proof.
  apply (point_lookups_return_stored Sample.store
           (mkCustomer "c3" "Bob" "bob@example.com" None None None)
           (mkProduct "p2" "Lamp" "lighting" (5 # 1) 3)
           Sample.orderB).
  - right. left. reflexivity.
  - right. left. reflexivity.
  - right. left. reflexivity.
  - simpl. repeat constructor; simpl; intuition discriminate.
  - simpl. repeat constructor; simpl; intuition discriminate.
  - simpl. repeat constructor; simpl; intuition discriminate.
  - reflexivity.
  - reflexivity.
  - reflexivity.
  - intros call. reflexivity.
Defined.

(** getCustomer, getProduct and getOrder reject with BAD_USER_INPUT exactly
    when the id does not fit the key format of the store, whatever the store
    holds and whether or not it answers. *)
Theorem point_lookups_BAD_USER_INPUT_iff (s : Store) (id : string) :
  (rejects (getCustomer s id) BAD_USER_INPUT <-> idFormat s id = false)
  /\ (rejects (getProduct s id) BAD_USER_INPUT <-> idFormat s id = false)
  /\ (rejects (getOrder s id) BAD_USER_INPUT <-> idFormat s id = false).
Proof.
  split; [|split]; apply lookup_BAD_USER_INPUT_iff.
Qed.

(** When the store does not answer a lookup of a well-formed id, the lookup
    logs the error and rejects with the generic error, which carries no
    code. *)
Theorem point_lookups_store_failure (s : Store) (id : string) :
  idFormat s id = true ->
  failing s (Customer_findById id) = true ->
  failing s (Product_findById id) = true ->
  failing s (Order_findById id) = true ->
  getCustomer s id
  = ([StoreAccess (Customer_findById id); ConsoleError "Error fetching customer:"],
     Throw (ThrowGraphQL (mkGraphQLError "Error fetching customer" None)))
  /\ getProduct s id
     = ([StoreAccess (Product_findById id); ConsoleError "Error fetching product:"],
        Throw (ThrowGraphQL (mkGraphQLError "Error fetching product" None)))
  /\ getOrder s id
     = ([StoreAccess (Order_findById id); ConsoleError "Error fetching order:"],
        Throw (ThrowGraphQL (mkGraphQLError "Error fetching order" None))).
Proof.
  intros Hf H1 H2 H3.
  split; [|split]; apply lookup_store_failure; assumption.
Qed.

Lemma point_lookups_store_failure_witness :
  getCustomer Sample.down "c1"
  = ([StoreAccess (Customer_findById "c1"); ConsoleError "Error fetching customer:"],
     Throw (ThrowGraphQL (mkGraphQLError "Error fetching customer" None)))
  /\ getProduct Sample.down "c1"
     = ([StoreAccess (Product_findById "c1"); ConsoleError "Error fetching product:"],
        Throw (ThrowGraphQL (mkGraphQLError "Error fetching product" None)))
  /\ getOrder Sample.down "c1"
     = ([StoreAccess (Order_findById "c1"); ConsoleError "Error fetching order:"],
        Throw (ThrowGraphQL (mkGraphQLError "Error fetching order" None))).
Proof.
  apply (point_lookups_store_failure Sample.down "c1"); reflexivity.
Defined.

(** ** Relationship resolvers *)

Section RelationshipFacts.

Context {D : Type}.
Variable call : string -> StoreCall.
Variable coll : list D.
Variable key : D -> string.
Variable label : string.
Variable s : Store.
Variable id : string.

Local Abbreviation resolve :=
  (Async.try_catch (findById call coll key s id)
     (fun error => Async.emit (ConsoleError label) ;;; Async.ret (@None D))).

Lemma resolve_outcome :
  resolve =
  if negb (idFormat s id) || failing s (call id)
  then ([StoreAccess (call id); ConsoleError label], Return None)
  else ([StoreAccess (call id)],
        Return (find (fun d => (key d =? id)%string) coll)).
Proof.
  rewrite findById_outcome.
  destruct (idFormat s id); cbn; [|reflexivity].
  destruct (failing s (call id)); reflexivity.
Qed.

Lemma resolve_null_iff :
  Async.outcome resolve = Return None
  <-> idFormat s id = false \/ failing s (call id) = true
      \/ forall d, In d coll -> key d <> id.
Proof.
  rewrite resolve_outcome.
  destruct (idFormat s id); cbn; [|split; auto].
  destruct (failing s (call id)); cbn; [split; auto|].
  split.
  - intros H. right. right. intros d Hd E. inversion H as [F].
    pose proof (find_none _ _ F d Hd) as N. cbn in N.
    rewrite E, String.eqb_refl in N. discriminate.
  - intros [H|[H|H]]; try discriminate.
    rewrite (find_absent key id coll H). reflexivity.
Qed.

Lemma resolve_sound (d : D) :
  Async.outcome resolve = Return (Some d) -> In d coll /\ key d = id.
Proof.
  rewrite resolve_outcome.
  destruct (negb (idFormat s id) || failing s (call id)); cbn; [discriminate|].
  intros H. inversion H as [F]. apply find_some in F.
  destruct F as [Hin E]. apply String.eqb_eq in E. auto.
Qed.

Lemma resolve_returns : exists r, Async.outcome resolve = Return r.
Proof.
  rewrite resolve_outcome.
  destruct (negb (idFormat s id) || failing s (call id)); eexists; reflexivity.
Qed.

Lemma resolve_logs_iff :
  In (ConsoleError label) (Async.trace resolve)
  <-> idFormat s id = false \/ failing s (call id) = true.
Proof.
  rewrite resolve_outcome.
  destruct (idFormat s id); cbn.
  - destruct (failing s (call id)); cbn.
    + split; [auto | intros _; right; left; reflexivity].
    + split; [intros [H|[]]; discriminate | intros [H|H]; discriminate].
  - split; [auto | intros _; right; left; reflexivity].
Qed.

End RelationshipFacts.

(** Order.customer and OrderItem.product never reject: whatever the store
    does they return, and what they return is either null or a record of the
    collection that carries the referenced id. *)
Theorem relationship_resolvers_never_reject (s : Store) (order : Order)
    (item : OrderItem) :
  (exists r, Async.outcome (Resolve.Order_customer s order) = Return r
             /\ forall c, r = Some c ->
                          In c (Customers s) /\ customer_id c = customerId order)
  /\ (exists r, Async.outcome (Resolve.OrderItem_product s item) = Return r
                /\ forall p, r = Some p ->
                             In p (Products s) /\ product_id p = productId item).
Proof.
  split.
  - destruct (resolve_returns Customer_findById (Customers s) customer_id
                ("Error fetching customer " ++ customerId order
                 ++ " for order " ++ order_id order ++ ":")%string
                s (customerId order)) as (r & Hr).
    exists r. split; [exact Hr|]. intros c ->.
    exact (resolve_sound _ _ _ _ _ _ c Hr).
  - destruct (resolve_returns Product_findById (Products s) product_id
                ("Error fetching product " ++ productId item
                 ++ " for order item:")%string
                s (productId item)) as (r & Hr).
    exists r. split; [exact Hr|]. intros p ->.
    exact (resolve_sound _ _ _ _ _ _ p Hr).
Qed.

(** Order.customer resolves to null exactly when the referenced id does not
    fit the key format, the store does not answer, or no customer carries
    the id; only the first two are logged, a missing customer is not.
    OrderItem.product behaves the same way for products. *)
Theorem relationship_resolvers_null_iff (s : Store) (order : Order)
    (item : OrderItem) :
  (Async.outcome (Resolve.Order_customer s order) = Return None
   <-> idFormat s (customerId order) = false
       \/ failing s (Customer_findById (customerId order)) = true
       \/ forall c, In c (Customers s) -> customer_id c <> customerId order)
  /\ (In (ConsoleError ("Error fetching customer " ++ customerId order
                        ++ " for order " ++ order_id order ++ ":")%string)
         (Async.trace (Resolve.Order_customer s order))
      <-> idFormat s (customerId order) = false
          \/ failing s (Customer_findById (customerId order)) = true)
  /\ (Async.outcome (Resolve.OrderItem_product s item) = Return None
      <-> idFormat s (productId item) = false
          \/ failing s (Product_findById (productId item)) = true
          \/ forall p, In p (Products s) -> product_id p <> productId item)
  /\ (In (ConsoleError ("Error fetching product " ++ productId item
                        ++ " for order item:")%string)
         (Async.trace (Resolve.OrderItem_product s item))
      <-> idFormat s (productId item) = false
          \/ failing s (Product_findById (productId item)) = true).
Proof.
  split; [apply resolve_null_iff|].
  split; [apply resolve_logs_iff|].
  split; [apply resolve_null_iff | apply resolve_logs_iff].
Qed.

(** ** The Date scalar *)

Section DateScalarFacts.

Variable newDate : string -> option Z.
Variable toISOString : Z -> string.

(** A valid date survives the wire: when the platform parses the ISO string
    of a time value back to that time value, what serialize writes is read
    back as the same date by parseValue and by parseLiteral. *)
Theorem dateScalar_round_trip (t : Z) :
  newDate (toISOString t) = Some t ->
  exists wire,
    DateScalar.serialize toISOString (DateScalar.JsDate (Some t)) = DateScalar.Ok wire
    /\ DateScalar.parseValue newDate (DateScalar.JsString wire)
       = DateScalar.Ok (DateScalar.JsDate (Some t))
    /\ DateScalar.parseLiteral newDate (DateScalar.StringValue wire)
       = Some (DateScalar.JsDate (Some t)).
Proof.
  intros H. exists (toISOString t). cbn. rewrite H. repeat split.
Qed.

(** parseValue and parseLiteral do not validate: a string that does not
    parse is accepted as the Invalid Date, and serialize cannot write that
    value back, failing with a RangeError that is not a GraphQLError. *)
Theorem dateScalar_accepts_unparsable (v : string) :
  newDate v = None ->
  exists d,
    DateScalar.parseValue newDate (DateScalar.JsString v) = DateScalar.Ok d
    /\ DateScalar.parseLiteral newDate (DateScalar.StringValue v) = Some d
    /\ DateScalar.serialize toISOString d = DateScalar.Raise DateScalar.RaiseRangeError.
Proof.
  intros H. exists (DateScalar.JsDate None). cbn. rewrite H. repeat split.
Qed.

End DateScalarFacts.

Lemma dateScalar_round_trip_witness :
  exists wire,
    DateScalar.serialize Sample.toISOString (DateScalar.JsDate (Some 1704844800000))
    = DateScalar.Ok wire
    /\ DateScalar.parseValue Sample.isoDate (DateScalar.JsString wire)
       = DateScalar.Ok (DateScalar.JsDate (Some 1704844800000))
    /\ DateScalar.parseLiteral Sample.isoDate (DateScalar.StringValue wire)
       = Some (DateScalar.JsDate (Some 1704844800000)).
Proof.
  apply (dateScalar_round_trip Sample.isoDate Sample.toISOString 1704844800000).
  reflexivity.
Defined.

Lemma dateScalar_accepts_unparsable_witness :
  exists d,
    DateScalar.parseValue Sample.isoDate (DateScalar.JsString "yesterday")
    = DateScalar.Ok d
    /\ DateScalar.parseLiteral Sample.isoDate (DateScalar.StringValue "yesterday") = Some d
    /\ DateScalar.serialize Sample.toISOString d
       = DateScalar.Raise DateScalar.RaiseRangeError.
Proof.
  apply (dateScalar_accepts_unparsable Sample.isoDate Sample.toISOString "yesterday").
  reflexivity.
Defined.

(** ** getTopSellingProducts and the status of orders *)

Lemma unwind_set_status (f : Order -> Status) (l : list Order) :
  Stage.unwind_products (map (set_status f) l) = Stage.unwind_products l.
Proof.
  unfold Stage.unwind_products.
  induction l as [|o l IH]; [reflexivity|].
  cbn [map flat_map set_status products]. rewrite IH. reflexivity.
Qed.

(** getTopSellingProducts never reads the status of an order: the line items
    of pending and canceled orders are ranked with those of completed ones,
    and rewriting every status leaves the whole computation unchanged. *)
Theorem getTopSellingProducts_ignores_status (s : Store) (f : Order -> Status)
    (limit : option Z) :
  getTopSellingProducts (with_orders s (map (set_status f) (Orders s))) limit
  = getTopSellingProducts s limit.
Proof.
  unfold getTopSellingProducts.
  destruct (bad_limit limit); [reflexivity|].
  rewrite !aggregate_outcome.
  cbn [with_orders failing Orders Products]. unfold TopSelling.run.
  rewrite unwind_set_status. reflexivity.
Qed.

(** * Amounts up to rounding *)

Section RoundingBounds.

Lemma hundredths_scale (n : Z) : ((n # 100) * 100 == inject_Z n)%Q.
Proof. unfold Qeq, Qmult, inject_Z. simpl. lia. Qed.

(** [toFixed(2)] moves a number by at most half a cent. *)
Lemma toFixed2_close (x : Q) : (Qabs (Num.toFixed2 x - x) <= 1 # 200)%Q.
Proof.
  unfold Num.toFixed2.
  set (n := Qfloor (Qabs x * 100 + (1 # 2))).
  pose proof (Qfloor_le (Qabs x * 100 + (1 # 2))) as Lo.
  pose proof (Qlt_floor (Qabs x * 100 + (1 # 2))) as Hi.
  fold n in Lo, Hi. rewrite inject_Z_plus in Hi. change (inject_Z 1) with 1%Q in Hi.
  clearbody n.
  pose proof (hundredths_scale n) as Sn.
  pose proof (hundredths_scale (- n)) as Sm. rewrite inject_Z_opp in Sm.
  set (v := n # 100) in *. set (w := (- n) # 100) in *. set (i := inject_Z n) in *.
  clearbody v w i.
  destruct (Qle_bool 0 x) eqn:E.
  - apply Qle_bool_iff in E. rewrite (Qabs_pos x E) in Lo, Hi.
    apply Qabs_Qle_condition. split; lra.
  - assert (N : (x < 0)%Q).
    { apply Qnot_le_lt. rewrite <- Qle_bool_iff. congruence. }
    rewrite (Qabs_neg x) in Lo, Hi by lra.
    apply Qabs_Qle_condition. split; lra.
Qed.

(** So does [$round] to two places, whichever way it breaks a tie. *)
Lemma mongoRound2_close (x : Q) : (Qabs (Num.mongoRound2 x - x) <= 1 # 200)%Q.
Proof.
  unfold Num.mongoRound2, Num.round_half_even.
  set (f := Qfloor (x * 100)).
  pose proof (Qfloor_le (x * 100)) as Lo.
  pose proof (Qlt_floor (x * 100)) as Hi.
  fold f in Lo, Hi. rewrite inject_Z_plus in Hi. change (inject_Z 1) with 1%Q in Hi.
  pose proof (hundredths_scale f) as Sf.
  pose proof (hundredths_scale (f + 1)) as Sg.
  rewrite inject_Z_plus in Sg. change (inject_Z 1) with 1%Q in Sg.
  destruct (x * 100 - inject_Z f ?= 1 # 2)%Q eqn:C.
  - apply Qeq_alt in C.
    destruct (Z.even f); apply Qabs_Qle_condition; split; lra.
  - apply Qlt_alt in C. apply Qabs_Qle_condition. split; lra.
  - apply Qgt_alt in C. apply Qabs_Qle_condition. split; lra.
Qed.

(** A quotient by the number of orders: replacing the dividend by a value
    within half a cent moves the rounded quotient by at most a cent. *)
Lemma reported_close (avg S T : Q) (n : Z) :
  1 <= n ->
  (Qabs (T - S) <= 1 # 200)%Q ->
  (Qabs (avg - S / inject_Z n) <= 1 # 200)%Q ->
  (Qabs (avg - T / inject_Z n) <= 1 # 100)%Q.
Proof.
  intros Hn HT HA.
  apply Qabs_Qle_condition in HT. apply Qabs_Qle_condition in HA.
  assert (P : (1 <= inject_Z n)%Q)
    by (change 1%Q with (inject_Z 1); rewrite <- Zle_Qle; exact Hn).
  set (q := (/ inject_Z n)%Q).
  assert (Q0 : (0 < q)%Q) by (apply Qinv_lt_0_compat; lra).
  assert (Q1 : (q <= 1)%Q) by (unfold q; apply Qle_shift_inv_r; lra).
  unfold Qdiv in *. fold q in HA |- *.
  apply Qabs_Qle_condition. split; nra.
Qed.

Lemma sumQ_two_decimals (l : list Q) :
  Forall Num.two_decimals l -> Num.two_decimals (Num.sumQ l).
Proof.
  induction 1 as [|x l [a Ha] _ [b Hb]].
  - exists 0. reflexivity.
  - exists (a + b). rewrite sumQ_cons, Ha, Hb. unfold Qeq, Qplus. simpl. lia.
Qed.

(** Amounts in whole cents add up to whole cents, which rounding keeps. *)
Lemma toFixed2_exact (x : Q) : Num.two_decimals x -> (Num.toFixed2 x == x)%Q.
Proof.
  intros [k Hk].
  rewrite (toFixed2_Qeq _ _ Hk), toFixed2_hundredths. symmetry. exact Hk.
Qed.

End RoundingBounds.

(** ** getCustomerSpending: the summary of a customer's orders *)

Section SpendingSummary.

Local Open Scope string_scope.

Lemma summary_of_close (cid : string) (os : list Order) (last : Z) :
  os <> [] ->
  Num.two_decimals (totalSpent (summary_of cid os last))
  /\ (Qabs (totalSpent (summary_of cid os last) - Num.sumQ (map totalAmount os))
      <= 1 # 200)%Q
  /\ Num.two_decimals (averageOrderValue (summary_of cid os last))
  /\ (Qabs (averageOrderValue (summary_of cid os last)
            - Num.sumQ (map totalAmount os) / inject_Z (Z.of_nat (List.length os)))
      <= 1 # 200)%Q
  /\ (Qabs (averageOrderValue (summary_of cid os last)
            - totalSpent (summary_of cid os last) / inject_Z (Z.of_nat (List.length os)))
      <= 1 # 100)%Q.
Proof.
  intros Hne. cbn [summary_of totalSpent averageOrderValue].
  split; [apply toFixed2_two_decimals|].
  split; [apply toFixed2_close|].
  split; [apply toFixed2_two_decimals|].
  split; [apply toFixed2_close|].
  apply reported_close with (S := Num.sumQ (map totalAmount os)).
  - destruct os; [contradiction | cbn [List.length]; lia].
  - apply toFixed2_close.
  - apply toFixed2_close.
Qed.

(** C5. In every value getCustomerSpending returns, totalSpent and
    averageOrderValue are written with two decimals.  With at least one
    order, totalSpent is the sum of the stored totals rounded to two decimals
    (within half a cent of it, and equal to it when the totals are whole
    cents) and averageOrderValue is that sum divided by the number of orders,
    rounded to two decimals: it lies within half a cent of the quotient, and
    within a cent of the reported totalSpent divided by the number of orders.
    Without an order both are 0, and the guarded division of the pipeline
    never fails. *)
Theorem getCustomerSpending_rounding (s : Store) (v : option string)
    (r : CustomerSpending) :
  Async.outcome (getCustomerSpending s v) = Return r ->
  exists cid,
    v = Some cid
    /\ Num.two_decimals (totalSpent r)
    /\ Num.two_decimals (averageOrderValue r)
    /\ (orders_of s cid <> [] ->
        (Qabs (totalSpent r - Num.sumQ (map totalAmount (orders_of s cid)))
         <= 1 # 200)%Q
        /\ (Qabs (averageOrderValue r
                  - Num.sumQ (map totalAmount (orders_of s cid))
                    / inject_Z (Z.of_nat (List.length (orders_of s cid))))
            <= 1 # 200)%Q
        /\ (Qabs (averageOrderValue r
                  - totalSpent r / inject_Z (Z.of_nat (List.length (orders_of s cid))))
            <= 1 # 100)%Q
        /\ (Forall Num.two_decimals (map totalAmount (orders_of s cid)) ->
            (totalSpent r == Num.sumQ (map totalAmount (orders_of s cid)))%Q))
    /\ (orders_of s cid = [] -> totalSpent r = 0%Q /\ averageOrderValue r = 0%Q)
    /\ exists docs, Spending.run cid (Orders s) = Some docs.
Proof.
  intros H.
  destruct v as [cid|]; [|cbn in H; discriminate].
  destruct (String.eqb_spec cid "") as [->|Hc]; [cbn in H; discriminate|].
  exists cid. split; [reflexivity|].
  destruct (spending_returns s cid Hc r H) as [(Hne & last & ->)|(He & ->)].
  - destruct (summary_of_close cid (orders_of s cid) last Hne)
      as (D1 & C1 & D2 & C2 & C3).
    split; [exact D1|]. split; [exact D2|].
    split; [|split; [intros E; contradiction | apply run_total]].
    intros _. split; [exact C1|]. split; [exact C2|]. split; [exact C3|].
    intros Hall. cbn [summary_of totalSpent].
    apply toFixed2_exact, sumQ_two_decimals. exact Hall.
  - cbn [zero_summary totalSpent averageOrderValue].
    split; [apply two_decimals_zero|].
    split; [apply two_decimals_zero|].
    split; [intros Hne; contradiction|].
    split; [intros _; split; reflexivity | apply run_total].
Qed.

Lemma getCustomerSpending_rounding_witness :
  exists cid,
    Some "c1" = Some cid
    /\ Num.two_decimals (3001 # 100)
    /\ Num.two_decimals (1000 # 100)
    /\ (orders_of Sample.thirds cid <> [] ->
        (Qabs ((3001 # 100) - Num.sumQ (map totalAmount (orders_of Sample.thirds cid)))
         <= 1 # 200)%Q
        /\ (Qabs ((1000 # 100)
                  - Num.sumQ (map totalAmount (orders_of Sample.thirds cid))
                    / inject_Z (Z.of_nat (List.length (orders_of Sample.thirds cid))))
            <= 1 # 200)%Q
        /\ (Qabs ((1000 # 100)
                  - (3001 # 100)
                    / inject_Z (Z.of_nat (List.length (orders_of Sample.thirds cid))))
            <= 1 # 100)%Q
        /\ (Forall Num.two_decimals (map totalAmount (orders_of Sample.thirds cid)) ->
            ((3001 # 100) == Num.sumQ (map totalAmount (orders_of Sample.thirds cid)))%Q))
    /\ (orders_of Sample.thirds cid = [] -> (3001 # 100) = 0%Q /\ (1000 # 100) = 0%Q)
    /\ exists docs, Spending.run cid (Orders Sample.thirds) = Some docs.
Proof.
  exact (getCustomerSpending_rounding Sample.thirds (Some "c1")
           {| cs_customerId := "c1";
              totalSpent := 3001 # 100;
              averageOrderValue := 1000 # 100;
              lastOrderDate := Some 3 |}
           eq_refl).
Defined.

(** C10. A non-empty id that names at least one order: the resolver makes
    the aggregation call and no other, and returns the summary of the orders
    of that id - their latest date, their total and their average, each
    amount with two decimals and within half a cent of the exact value.  The
    customer collection and the key format are never consulted: the whole
    computation is the same on any other customer collection, an empty one
    included, so the summary is returned also when no customer record
    carries the id. *)
Theorem getCustomerSpending_skips_customer_check (s : Store) (cid : string) :
  cid <> "" ->
  failing s (Order_aggregate (spendingPipeline cid)) = false ->
  (exists o, In o (Orders s) /\ customerId o = cid) ->
  exists r last,
    getCustomerSpending s (Some cid) =
      ([StoreAccess (Order_aggregate (spendingPipeline cid))], Return r)
    /\ ~ In (StoreAccess (Customer_findById cid))
            (Async.trace (getCustomerSpending s (Some cid)))
    /\ (forall cs fmt,
          getCustomerSpending (with_directory s cs fmt) (Some cid)
          = getCustomerSpending s (Some cid))
    /\ cs_customerId r = cid
    /\ lastOrderDate r = Some last
    /\ latest_date (orders_of s cid) last
    /\ Num.two_decimals (totalSpent r)
    /\ (Qabs (totalSpent r - Num.sumQ (map totalAmount (orders_of s cid)))
        <= 1 # 200)%Q
    /\ Num.two_decimals (averageOrderValue r)
    /\ (Qabs (averageOrderValue r
              - Num.sumQ (map totalAmount (orders_of s cid))
                / inject_Z (Z.of_nat (List.length (orders_of s cid))))
        <= 1 # 200)%Q.
Proof.
  intros Hc Hf (o & Hin & Ho).
  assert (Hne : orders_of s cid <> []).
  { intros E. assert (X : In o (orders_of s cid))
      by (apply filter_In; split; [exact Hin | apply String.eqb_eq; exact Ho]).
    rewrite E in X. exact X. }
  destruct (spending_of_orders s cid Hc Hf Hne) as (last & Eq & Hl).
  exists (summary_of cid (orders_of s cid) last), last.
  split; [exact Eq|].
  split; [rewrite Eq; cbn; intros [H|[]]; discriminate|].
  split.
  { intros cs fmt.
    destruct (spending_of_orders (with_directory s cs fmt) cid Hc Hf Hne)
      as (last' & Eq' & Hl').
    rewrite Eq, Eq'.
    change (orders_of (with_directory s cs fmt) cid) with (orders_of s cid) in *.
    rewrite (latest_date_unique _ _ last' last (fun d => iff_refl _) Hl' Hl).
    reflexivity. }
  split; [reflexivity|]. split; [reflexivity|]. split; [exact Hl|].
  destruct (summary_of_close cid (orders_of s cid) last Hne)
    as (D1 & C1 & D2 & C2 & _).
  auto.
Qed.

Lemma getCustomerSpending_skips_customer_check_witness :
  (forall c, In c (Customers Sample.store) -> customer_id c <> "c2")
  /\ exists r last,
    getCustomerSpending Sample.store (Some "c2") =
      ([StoreAccess (Order_aggregate (spendingPipeline "c2"))], Return r)
    /\ ~ In (StoreAccess (Customer_findById "c2"))
            (Async.trace (getCustomerSpending Sample.store (Some "c2")))
    /\ (forall cs fmt,
          getCustomerSpending (with_directory Sample.store cs fmt) (Some "c2")
          = getCustomerSpending Sample.store (Some "c2"))
    /\ cs_customerId r = "c2"
    /\ lastOrderDate r = Some last
    /\ latest_date (orders_of Sample.store "c2") last
    /\ Num.two_decimals (totalSpent r)
    /\ (Qabs (totalSpent r - Num.sumQ (map totalAmount (orders_of Sample.store "c2")))
        <= 1 # 200)%Q
    /\ Num.two_decimals (averageOrderValue r)
    /\ (Qabs (averageOrderValue r
              - Num.sumQ (map totalAmount (orders_of Sample.store "c2"))
                / inject_Z (Z.of_nat (List.length (orders_of Sample.store "c2"))))
        <= 1 # 200)%Q.
Proof.
  split.
  - intros c [<-|[<-|[]]]; discriminate.
  - apply (getCustomerSpending_skips_customer_check Sample.store "c2").
    + discriminate.
    + reflexivity.
    + exists Sample.orderC. split; [right; right; left; reflexivity | reflexivity].
Defined.

(** On a store whose key format accepts every string, as the String keys of
    the three schemas do, getCustomerSpending rejects with BAD_USER_INPUT
    exactly when the customerId is absent or empty: the branch that reports
    an invalid id format is never taken. *)
Theorem getCustomerSpending_BAD_USER_INPUT_iff (s : Store) (v : option string) :
  (forall id, idFormat s id = true) ->
  rejects (getCustomerSpending s v) BAD_USER_INPUT
  <-> v = None \/ v = Some "".
Proof.
  intros Hfmt. split.
  - intros (g & Ho & Hg).
    destruct v as [cid|]; [|left; reflexivity].
    destruct (String.eqb_spec cid "") as [->|Hc]; [right; reflexivity|].
    exfalso. revert Ho. unfold getCustomerSpending.
    rewrite (falsy_id_given cid Hc), aggregate_outcome.
    destruct (failing s _); [cbn; intros Ho; inversion Ho; subst; discriminate|].
    destruct (Spending.run _ (Orders s)) as [[|r0 t]|];
      try (cbn; intros Ho; inversion Ho; subst; discriminate).
    rewrite findById_outcome, (Hfmt cid). cbn [negb].
    destruct (failing s (Customer_findById _)); cbn;
      [intros Ho; inversion Ho; subst; discriminate|].
    destruct (find _ (Customers s)); cbn;
      intros Ho; inversion Ho; subst; discriminate.
  - intros [->| ->]; eexists; split; reflexivity.
Qed.

Lemma getCustomerSpending_BAD_USER_INPUT_iff_witness :
  rejects (getCustomerSpending Sample.store (Some "c4")) BAD_USER_INPUT
  <-> Some "c4" = None \/ Some "c4" = Some "".
Proof.
  apply (getCustomerSpending_BAD_USER_INPUT_iff Sample.store (Some "c4")).
  intros id. reflexivity.
Defined.

End SpendingSummary.

(** * The ranking getTopSellingProducts cuts *)

Section TopSellingAnswer.



End TopSellingAnswer.



(** On the sample store the product "p9", which has no record, leads the
    ranking; with a limit of 2 the first two groups are "p9" and "p1", and
    the answer is the one of them that is on record. *)
Example getTopSellingProducts_sample :
  Async.outcome (getTopSellingProducts Sample.store (Some 2))
  = Return [ {| tp_productId := "p1"; tp_name := "Kettle"; totalSold := 8 |} ].
Proof. reflexivity. Qed.

(** * What getSalesAnalytics counts *)

Section CountedOrders.

(** [$round] keeps an amount in whole cents. *)
Lemma mongoRound2_exact (x : Q) : Num.two_decimals x -> (Num.mongoRound2 x == x)%Q.
Proof.
  intros [k Hk].
  pose proof (mongoRound2_close x) as C.
  unfold Num.mongoRound2 in *.
  set (m := Num.round_half_even (x * 100)) in *. clearbody m.
  rewrite Hk in C |- *.
  apply Qabs_Qle_condition in C. destruct C as [C1 C2].
  unfold Qle, Qminus, Qplus, Qopp in C1, C2. cbn in C1, C2.
  unfold Qeq. cbn. lia.
Qed.

Lemma item_revenue_two_decimals (it : OrderItem) :
  Num.two_decimals (priceAtPurchase it) -> Num.two_decimals (item_revenue it).
Proof.
  intros [k Hk]. exists (quantity it * k). unfold item_revenue. rewrite Hk.
  unfold Qeq, Qmult, inject_Z. cbn. lia.
Qed.

Variable Prods : list Product.
Hypothesis unique : NoDup (map product_id Prods).
Variable counted : list Order.

(** The revenue of an entry, before the resolver sees it, is the [$round] of
    what the line items of its category sold for. *)
Lemma breakdown_entry (c : CategoryRevenue) :
  In c (breakdown_of Prods counted) ->
  revenue c
  = Num.mongoRound2
      (Num.sumQ (map item_revenue
                     (filter (in_category Prods (cr_category c))
                             (Stage.unwind_products counted)))).
Proof.
  rewrite breakdown_of_eq. intros Hc.
  apply (Permutation_in _ (sort_desc_Permutation _ _)) in Hc.
  apply in_map_iff in Hc. destruct Hc as (c0 & <- & Hc0).
  unfold Analytics.categoryGroup in Hc0. apply in_map_iff in Hc0.
  destruct Hc0 as ([k docs] & <- & Hg).
  apply (group_by_In String.eqb _ String.eqb_eq) in Hg. destruct Hg as [-> _].
  cbn [Analytics.roundProject revenue cr_category].
  unfold joined_items. rewrite (joined_in_category Prods unique). reflexivity.
Qed.

(** Every category in which a line item of the counted orders falls has an
    entry. *)
Lemma breakdown_reports (it : OrderItem) (k : string) :
  In it (Stage.unwind_products counted) ->
  category_of Prods it = Some k ->
  exists c, In c (breakdown_of Prods counted) /\ cr_category c = k.
Proof.
  intros Hit Hk. unfold category_of in Hk.
  destruct (find (fun p => (product_id p =? productId it)%string) Prods)
    as [p|] eqn:F; [|discriminate].
  cbn in Hk. inversion Hk; subst k.
  apply find_some in F. destruct F as [Hp Hid]. apply String.eqb_eq in Hid.
  assert (J : In (Analytics.itemProject it, p) (joined_items Prods counted)).
  { unfold joined_items. apply lookup_unwind_In.
    split; [apply in_map; exact Hit | split; [exact Hp | exact Hid]]. }
  pose proof (group_by_In_conv String.eqb
                (fun d : Analytics.ItemRevenue * Product => category (snd d))
                String.eqb_eq _ (category p)
                (in_map (fun d : Analytics.ItemRevenue * Product => category (snd d))
                        _ _ J)) as G.
  rewrite breakdown_of_eq. eexists. split.
  - apply (Permutation_in _ (Permutation_sym (sort_desc_Permutation _ _))).
    apply in_map. unfold Analytics.categoryGroup. apply in_map_iff.
    eexists. split; [reflexivity | exact G].
  - reflexivity.
Qed.

Lemma breakdown_categories_NoDup : NoDup (map cr_category (breakdown_of Prods counted)).
Proof.
  rewrite breakdown_of_eq.
  apply (Permutation_NoDup
           (Permutation_sym (Permutation_map cr_category (sort_desc_Permutation _ _)))).
  apply grouped_categories_NoDup.
Qed.

End CountedOrders.

(** C3. For dates that parse to start < finish and a store that answers,
    getSalesAnalytics counts exactly the completed orders dated in
    [start, finish).  completedOrders is their number.  totalRevenue is the
    sum of their stored totals rounded to two decimals: within half a cent of
    it, and equal to it when the totals are whole cents.  categoryBreakdown
    has one entry for each category in which a line item of those orders
    falls, and the revenue of an entry is what the line items of those orders
    in that category sold for, rounded to two decimals in the same sense.
    The result is the one the query gives on the store reduced to those
    orders.  A completed order dated [start] is counted, an order dated
    [finish] is not, and no pending or canceled order is.  (MongoDB keeps the
    ids of the product records unique.) *)
Theorem getSalesAnalytics_counts_window (newDate : string -> option Z)
    (s : Store) (startDate endDate : string) (start finish : Z) :
  newDate startDate = Some start ->
  newDate endDate = Some finish ->
  start < finish ->
  failing s (Order_aggregate (overallAnalyticsPipeline start finish)) = false ->
  failing s (Order_aggregate (categoryBreakdownPipeline start finish)) = false ->
  unique_product_ids s ->
  exists counted r,
    (forall o, In o counted
               <-> In o (Orders s) /\ status o = completed
                   /\ start <= orderDate o < finish)
    /\ Async.outcome (getSalesAnalytics newDate s startDate endDate) = Return r
    /\ completedOrders r = Z.of_nat (List.length counted)
    /\ Num.two_decimals (totalRevenue r)
    /\ (Qabs (totalRevenue r - Num.sumQ (map totalAmount counted)) <= 1 # 200)%Q
    /\ (Forall Num.two_decimals (map totalAmount counted) ->
        (totalRevenue r == Num.sumQ (map totalAmount counted))%Q)
    /\ (forall c, In c (categoryBreakdown r) ->
          let sold := filter (in_category (Products s) (cr_category c))
                             (Stage.unwind_products counted) in
          sold <> []
          /\ Num.two_decimals (revenue c)
          /\ (Qabs (revenue c - Num.sumQ (map item_revenue sold)) <= 1 # 200)%Q
          /\ (Forall Num.two_decimals (map priceAtPurchase sold) ->
              (revenue c == Num.sumQ (map item_revenue sold))%Q))
    /\ (forall o it k,
          In o counted -> In it (products o) ->
          category_of (Products s) it = Some k ->
          exists c, In c (categoryBreakdown r) /\ cr_category c = k)
    /\ NoDup (map cr_category (categoryBreakdown r))
    /\ Async.outcome (getSalesAnalytics newDate (with_orders s counted) startDate endDate)
       = Return r
    /\ (forall o, In o (Orders s) -> status o = completed ->
                  orderDate o = start -> In o counted)
    /\ (forall o, orderDate o = finish -> ~ In o counted)
    /\ (forall o, status o <> completed -> ~ In o counted).
Proof.
  intros Ha Hb Hlt H1 H2 Hu.
  set (counted := Analytics.matchStage start finish (Orders s)).
  exists counted, (analytics_of (Products s) counted).
  split; [intros o; apply matchStage_In|].
  split; [rewrite (analytics_returns newDate s _ _ _ _ Ha Hb Hlt H1 H2); reflexivity|].
  split; [reflexivity|].
  assert (T : (totalRevenue (analytics_of (Products s) counted)
               == Num.toFixed2 (Num.sumQ (map totalAmount counted)))%Q).
  { unfold analytics_of. cbn [totalRevenue]. destruct counted; reflexivity. }
  split.
  { destruct (toFixed2_two_decimals (Num.sumQ (map totalAmount counted))) as [k Hk].
    exists k. rewrite T. exact Hk. }
  split; [rewrite T; apply toFixed2_close|].
  split.
  { intros Hall. rewrite T. apply toFixed2_exact, sumQ_two_decimals. exact Hall. }
  split.
  { intros c Hc. cbn [analytics_of categoryBreakdown] in Hc. cbv zeta.
    pose proof (breakdown_entry (Products s) Hu counted c Hc) as E.
    split.
    { rewrite breakdown_of_eq in Hc.
      apply (Permutation_in _ (sort_desc_Permutation _ _)) in Hc.
      apply in_map_iff in Hc. destruct Hc as (c0 & <- & Hc0).
      unfold Analytics.categoryGroup in Hc0. apply in_map_iff in Hc0.
      destruct Hc0 as ([k docs] & <- & Hg).
      apply (group_by_In String.eqb _ String.eqb_eq) in Hg. destruct Hg as [_ Hk].
      cbn [Analytics.roundProject cr_category].
      apply in_map_iff in Hk. destruct Hk as ([i p] & Ek & Hd).
      unfold joined_items in Hd. apply lookup_unwind_In in Hd.
      destruct Hd as (Hi & Hp & Hid).
      apply in_map_iff in Hi. destruct Hi as (it & <- & Hit).
      cbn in Ek, Hid.
      assert (X : In it (filter (in_category (Products s) k)
                                (Stage.unwind_products counted))).
      { apply filter_In. split; [exact Hit|].
        unfold in_category, category_of.
        pose proof (filter_find_unique (Products s) Hu (productId it)) as FU.
        assert (Fp : In p (filter (fun q => (product_id q =? productId it)%string)
                                  (Products s)))
          by (apply filter_In; split; [exact Hp | apply String.eqb_eq; exact Hid]).
        rewrite FU in Fp.
        destruct (find (fun q => (product_id q =? productId it)%string) (Products s))
          as [q|]; [|destruct Fp].
        destruct Fp as [->|[]]. cbn. rewrite Ek. apply String.eqb_refl. }
      intros N. rewrite N in X. exact X. }
    rewrite E.
    split; [apply mongoRound2_two_decimals|].
    split; [apply mongoRound2_close|].
    intros Hall. apply mongoRound2_exact, sumQ_two_decimals.
    rewrite Forall_forall in *. intros x Hx.
    apply in_map_iff in Hx. destruct Hx as (it & <- & Hit).
    apply item_revenue_two_decimals. apply Hall. apply in_map. exact Hit. }
  split.
  { intros o it k Ho Hit Hk.
    apply (breakdown_reports (Products s) counted it k); [|exact Hk].
    unfold Stage.unwind_products. apply in_flat_map. exists o. auto. }
  split; [apply breakdown_categories_NoDup|].
  split.
  { rewrite (analytics_returns newDate (with_orders s _) _ _ _ _ Ha Hb Hlt H1 H2).
    cbn [Async.outcome snd with_orders Orders Products].
    unfold counted. rewrite matchStage_idempotent. reflexivity. }
  split; [|split].
  - intros o Hin Hst Hd. apply matchStage_In. repeat split; auto; lia.
  - intros o Hd Hin. apply matchStage_In in Hin. lia.
  - intros o Hst Hin. apply matchStage_In in Hin. tauto.
Qed.

Lemma getSalesAnalytics_counts_window_witness :
  exists counted r,
    (forall o, In o counted
               <-> In o (Orders Sample.store) /\ status o = completed
                   /\ 1704412800000 <= orderDate o < 1704844800000)
    /\ Async.outcome (getSalesAnalytics Sample.newDate Sample.store
                                        "2024-01-05" "2024-01-10") = Return r
    /\ completedOrders r = Z.of_nat (List.length counted)
    /\ Num.two_decimals (totalRevenue r)
    /\ (Qabs (totalRevenue r - Num.sumQ (map totalAmount counted)) <= 1 # 200)%Q
    /\ (Forall Num.two_decimals (map totalAmount counted) ->
        (totalRevenue r == Num.sumQ (map totalAmount counted))%Q)
    /\ (forall c, In c (categoryBreakdown r) ->
          let sold := filter (in_category (Products Sample.store) (cr_category c))
                             (Stage.unwind_products counted) in
          sold <> []
          /\ Num.two_decimals (revenue c)
          /\ (Qabs (revenue c - Num.sumQ (map item_revenue sold)) <= 1 # 200)%Q
          /\ (Forall Num.two_decimals (map priceAtPurchase sold) ->
              (revenue c == Num.sumQ (map item_revenue sold))%Q))
    /\ (forall o it k,
          In o counted -> In it (products o) ->
          category_of (Products Sample.store) it = Some k ->
          exists c, In c (categoryBreakdown r) /\ cr_category c = k)
    /\ NoDup (map cr_category (categoryBreakdown r))
    /\ Async.outcome (getSalesAnalytics Sample.newDate (with_orders Sample.store counted)
                                        "2024-01-05" "2024-01-10")
       = Return r
    /\ (forall o, In o (Orders Sample.store) -> status o = completed ->
                  orderDate o = 1704412800000 -> In o counted)
    /\ (forall o, orderDate o = 1704844800000 -> ~ In o counted)
    /\ (forall o, status o <> completed -> ~ In o counted).
Proof.
  apply (getSalesAnalytics_counts_window Sample.newDate Sample.store
           "2024-01-05" "2024-01-10" 1704412800000 1704844800000).
  - reflexivity.
  - reflexivity.
  - lia.
  - reflexivity.
  - reflexivity.
  - unfold unique_product_ids. simpl.
    repeat constructor; simpl; intuition discriminate.
Defined.
